(** * SmtpService: the notification dispatch pipeline of medusa-plugin-smtp

    A shallow embedding of [src/services/smtp.js].

    Conventions of the model.
    - JavaScript numbers are exact: minor-unit amounts are integers ([Z]),
      rates and derived amounts are rationals ([Q]).  Rounding behaviour of
      IEEE doubles is outside the model.
    - Dynamic data (event payloads, render contexts, stored notifications) is a
      JSON-like [value]; aggregates returned by the domain services are typed
      records, encoded into [value] where the source puts them in a context.
    - A method of the service is a computation in [M]: it either returns or
      throws, and records the collaborators it invoked in a trace. *)

From Stdlib Require Import Ascii String QArith Qround Qabs.
From stdpp Require Import gmap strings list pretty.

Open Scope Z_scope.
Open Scope string_scope.
Open Scope list_scope.

(** ** Strings *)

Module Str.

Definition lower_ascii (c : ascii) : ascii :=
  let n := nat_of_ascii c in
  if ((65 <=? n) && (n <=? 90))%nat then ascii_of_nat (n + 32) else c.

Definition upper_ascii (c : ascii) : ascii :=
  let n := nat_of_ascii c in
  if ((97 <=? n) && (n <=? 122))%nat then ascii_of_nat (n - 32) else c.

Fixpoint map_ascii (f : ascii -> ascii) (s : string) : string :=
  match s with
  | EmptyString => EmptyString
  | String c r => String (f c) (map_ascii f r)
  end.

(** [String.prototype.toLowerCase] and [toUpperCase], on ASCII text. *)
Definition toLowerCase : string -> string := map_ascii lower_ascii.
Definition toUpperCase : string -> string := map_ascii upper_ascii.

(** [s.startsWith(p)] *)
Definition startsWith (s p : string) : bool := String.prefix p s.

(** [Array.prototype.includes] on an array of strings. *)
Definition includes (l : list string) (s : string) : bool :=
  existsb (String.eqb s) l.

(** [Array.prototype.join] *)
Fixpoint join (sep : string) (l : list string) : string :=
  match l with
  | [] => ""
  | [x] => x
  | x :: r => x +:+ sep +:+ join sep r
  end.

(** [s.replace(/pat/, rep)] for a pattern that is a literal text: the first
    occurrence is replaced. *)
Fixpoint replace_first (pat rep s : string) : string :=
  if String.prefix pat s
  then rep +:+ String.substring (String.length pat)
                 (String.length s - String.length pat) s
  else match s with
       | EmptyString => EmptyString
       | String c r => String c (replace_first pat rep r)
       end.

(** [n] copies of the character ["0"]. *)
Fixpoint zeros (n : nat) : string :=
  match n with
  | O => ""
  | S k => String "0" (zeros k)
  end.

End Str.

(** ** Numbers *)

Module Num.

(** [Math.round]: the nearest integer, a tie going to the larger one. *)
Definition round (x : Q) : Z := Qfloor (x + (1 # 2)).

(** [Number.prototype.toFixed(f)] for a magnitude below 10^21: the sign,
    then the integer [n] nearest to [|x| * 10^f] (the larger one on a tie),
    written with at least [f + 1] digits and a point before the last [f]. *)
Definition toFixed (x : Q) (f : nat) : string :=
  let sign := if Qlt_le_dec x 0 then "-" else "" in
  let n := round (Qabs x * inject_Z (10 ^ Z.of_nat f)) in
  let m : string := pretty n in
  match f with
  | O => sign +:+ m
  | _ =>
      let m := Str.zeros (S f - String.length m) +:+ m in
      let k := String.length m in
      sign +:+ String.substring 0 (k - f) m +:+ "." +:+ String.substring (k - f) f m
  end.

(** The text of an integer in a template literal, [`${n}`]. *)
Definition toString (n : Z) : string := pretty n.

End Num.

(** ** The price formatter *)

(** Modelled from the spec: [zeroDecimalCurrencies] is imported from the
    package medusa-core-utils, which is not among the sources; it is the
    table of the currencies without a minor unit, keyed in lower case. *)
Definition zeroDecimalCurrencies : list string :=
  [ "bif"; "clp"; "djf"; "gnf"; "jpy"; "kmf"; "krw"; "mga";
    "pyg"; "rwf"; "ugx"; "vnd"; "vuv"; "xaf"; "xof"; "xpf" ].

(** Modelled from the spec: [humanizeAmount] is imported from the package
    medusa-core-utils, which is not among the sources; it converts an amount
    in minor units into major units, dividing by 100 unless the currency has
    no minor unit. *)
Definition humanizeAmount (amount : Q) (currency : string) : Q :=
  let divisor :=
    if Str.includes zeroDecimalCurrencies (Str.toLowerCase currency)
    then 1 else 100 in
  amount / inject_Z divisor.

(** [humanPrice_(amount, currency)], lines 1221-1230. *)
Definition humanPrice_ (amount : Q) (currency : string) : string :=
  if Qeq_bool amount 0 then "0.00"
  else
    let normalized := humanizeAmount amount currency in
    Num.toFixed normalized
      (if Str.includes zeroDecimalCurrencies (Str.toLowerCase currency)
       then 0%nat else 2%nat).

(** [normalizeThumbUrl_(url)], lines 1232-1243.  [None] is [null]. *)
Definition normalizeThumbUrl_ (url : option string) : option string :=
  match url with
  | None => None
  | Some "" => None
  | Some u =>
      if Str.startsWith u "http" then Some u
      else if Str.startsWith u "//" then Some ("https:" +:+ u)
      else Some u
  end.

(** ** Dynamic values *)

(** A JavaScript value as the service handles it: event payloads, render
    contexts and stored notifications.  An object is the list of its own
    properties in insertion order; [VDate] is a [Date] given by its epoch
    milliseconds. *)
#[warnings="-register-all"]
Inductive value : Type :=
| VUndefined
| VNull
| VBool (b : bool)
| VNum (q : Q)
| VStr (s : string)
| VDate (t : Z)
| VArr (l : list value)
| VObj (fields : list (string * value)).

Module Js.

Definition fields := list (string * value).

(** [!!v] *)
Definition truthy (v : value) : bool :=
  match v with
  | VUndefined | VNull => false
  | VBool b => b
  | VNum q => negb (Qeq_bool q 0)
  | VStr s => negb (String.eqb s "")
  | VDate _ | VArr _ | VObj _ => true
  end.

(** [a || b] *)
Definition or (a b : value) : value := if truthy a then a else b.

Fixpoint lookup_field (k : string) (o : fields) : option value :=
  match o with
  | [] => None
  | (k', v) :: r => if String.eqb k k' then Some v else lookup_field k r
  end.

(** [o[k] = v] on the own properties: an existing property keeps its
    place, a new one goes last. *)
Fixpoint set_field (k : string) (v : value) (o : fields) : fields :=
  match o with
  | [] => [(k, v)]
  | (k', v') :: r =>
      if String.eqb k k' then (k, v) :: r else (k', v') :: set_field k v r
  end.

(** [delete o[k]] *)
Fixpoint delete_field (k : string) (o : fields) : fields :=
  match o with
  | [] => []
  | (k', v') :: r =>
      if String.eqb k k' then r else (k', v') :: delete_field k r
  end.

Fixpoint indexed (i : nat) (l : list value) : fields :=
  match l with
  | [] => []
  | x :: r => (pretty i, x) :: indexed (S i) r
  end.

Fixpoint chars (s : string) : list value :=
  match s with
  | EmptyString => []
  | String c r => VStr (String c EmptyString) :: chars r
  end.

(** The own enumerable properties that an object spread [...v] copies. *)
Definition own_fields (v : value) : fields :=
  match v with
  | VObj o => o
  | VArr l => indexed 0 l
  | VStr s => indexed 0 (chars s)
  | _ => []
  end.

(** [{ ...o, ...v }]: the properties of [v] written over [o] in order. *)
Definition spread (v : value) (o : fields) : fields :=
  fold_left (fun acc kv => set_field kv.1 kv.2 acc) (own_fields v) o.

(** The properties [kvs] written over [o] from left to right: the rest
    of an object literal after a spread. *)
Definition assign (kvs : fields) (o : fields) : fields :=
  fold_left (fun acc kv => set_field kv.1 kv.2 acc) kvs o.

(** An object literal, its properties written from left to right. *)
Definition literal (kvs : fields) : fields := assign kvs [].

(** The value of [v.k] when [v] is neither [undefined] nor [null].  The
    service reads named properties only; of the properties that an array
    or a string inherits, [length] is the one the model knows. *)
Definition member (v : value) (k : string) : value :=
  match v with
  | VObj o => default VUndefined (lookup_field k o)
  | VArr l =>
      if String.eqb k "length" then VNum (inject_Z (Z.of_nat (length l)))
      else VUndefined
  | VStr s =>
      if String.eqb k "length"
      then VNum (inject_Z (Z.of_nat (String.length s)))
      else VUndefined
  | _ => VUndefined
  end.

Definition nullish (v : value) : bool :=
  match v with
  | VUndefined | VNull => true
  | _ => false
  end.

Definition of_option_string (o : option string) : value :=
  match o with
  | Some s => VStr s
  | None => VNull
  end.

Definition num (n : Z) : value := VNum (inject_Z n).

End Js.

(** ** Computations: return or throw, with a trace *)

Inductive Error : Type :=
| TypeError (what : string)
| ReferenceError (name : string)
| Rejection (reason : value).

Inductive Outcome (A : Type) : Type :=
| Return (a : A)
| Throw (e : Error).
Arguments Return {A} a.
Arguments Throw {A} e.

(** An attachment as [fetchAttachments] builds it, and as it is put in the
    message. *)
Record Attachment := { att_name : string; att_base64 : value; att_type : value }.

Record MessageAttachment := {
  content : value;
  filename : string;
  type : value;
  disposition : string;
  contentId : string }.

(** [sendOptions]: [{ template, message: { to, attachments }, locals: { data,
    env } }]; [message.attachments] may be absent. *)
Record SendOptions := {
  template : string;
  message_to : value;
  message_attachments : option (list MessageAttachment);
  locals_data : value;
  locals_env : value }.

(** What a dispatch does that its caller can observe besides the result:
    entering a stage of the pipeline, calling a collaborator, and handing a
    message to the mail client. *)
Inductive Effect : Type :=
| Stage (method : string) (event : string)
| Call (collaborator method : string) (args : list value)
| Send (sendOptions : SendOptions).

Record M (A : Type) : Type := mkM { trace : list Effect; outcome : Outcome A }.
Arguments mkM {A} trace outcome.
Arguments trace {A} m.
Arguments outcome {A} m.

Definition throw {A} (e : Error) : M A := mkM [] (Throw e).
Definition emit (e : Effect) : M unit := mkM [e] (Return tt).

#[export] Instance M_ret : MRet M := fun A a => mkM [] (Return a).

#[export] Instance M_bind : MBind M := fun A B f m =>
  match outcome m with
  | Return a => let r := f a in mkM (trace m ++ trace r) (outcome r)
  | Throw e => mkM (trace m) (Throw e)
  end.

Definition ret {A} (a : A) : M A := mret a.

(** The answer of a collaborator, recorded as a call. *)
Definition call {A} (collaborator method : string) (args : list value)
    (answer : Outcome A) : M A :=
  mkM [Call collaborator method args] answer.

(** [try { m } catch (err) { h }] *)
Definition try_catch {A} (m : M A) (h : Error -> M A) : M A :=
  match outcome m with
  | Return a => m
  | Throw e => let r := h e in mkM (trace m ++ trace r) (outcome r)
  end.

(** [await Promise.all(l.map(async (x) => f x))], the calls taken in the
    order of the array. *)
Fixpoint Promise_all_map {A B} (f : A -> M B) (l : list A) : M (list B) :=
  match l with
  | [] => ret []
  | x :: r => y ← f x; ys ← Promise_all_map f r; ret (y :: ys)
  end.

(** [v.k], which throws when [v] is [undefined] or [null]. *)
Definition get (v : value) (k : string) : M value :=
  if Js.nullish v
  then throw (TypeError ("Cannot read properties of undefined or null: " +:+ k))
  else ret (Js.member v k).

(** ** The aggregates of the domain services

    Each record has the properties that the service reads, with the types
    the domain gives them, and [extra] for the other properties of the
    object.  Amounts are integers in minor units; a quantity is at least 1. *)

Record DiscountRule := { rule_value : Z; rule_type : string }.
Record Discount := { discount_code : string; discount_rule : DiscountRule }.
Record GiftCard := { gc_code : string; gc_value : Z }.

Record LineItem := {
  item_id : string;
  item_thumbnail : option string;
  item_quantity : positive;
  item_unit_price : Z;
  item_is_return : bool;
  item_variant_id : option string;
  item_extra : Js.fields }.

(** The answer of [totalsService.getLineItemTotals]. *)
Record Totals := {
  totals_total : Z;
  totals_original_total : Z;
  totals_subtotal : Z;
  totals_tax_total : Z;
  totals_tax_lines : value }.

Record Order := {
  order_email : string;
  order_currency_code : string;
  order_tax_rate : Q;
  order_cart_id : option string;
  order_items : list LineItem;
  order_discounts : option (list Discount);
  order_gift_cards : option (list GiftCard);
  order_created_at : Z;
  order_subtotal : Z;
  order_tax_total : Z;
  order_discount_total : Z;
  order_shipping_total : Z;
  order_gift_card_total : Z;
  order_total : Z;
  order_extra : Js.fields }.

Record TaxLine := { tax_rate : Q }.

Record ShippingMethod := {
  sm_price : Z;
  sm_tax_lines : list TaxLine;
  sm_provider_id : string;
  sm_extra : Js.fields }.

Record ReturnItem := {
  ri_item_id : string;
  ri_quantity : positive;
  ri_extra : Js.fields }.

Record ReturnOrder := {
  ret_items : list ReturnItem;
  ret_shipping_method : option ShippingMethod;
  ret_shipping_data : value;
  ret_refund_amount : Z;
  ret_updated_at : Z;
  ret_extra : Js.fields }.

Record Swap := {
  swap_return_order : ReturnOrder;
  swap_cart_id : string;
  swap_order_id : string;
  swap_additional_items : list LineItem;
  swap_shipping_methods : value;
  swap_difference_due : Z;
  swap_updated_at : Z;
  swap_extra : Js.fields }.

Record Cart := {
  cart_items : list LineItem;
  cart_context : value;
  cart_total : Z;
  cart_tax_total : Z;
  cart_extra : Js.fields }.

Record Fulfillment := {
  ful_shipped_at : option Z;
  ful_tracking_links : value;
  ful_tracking_numbers : list string;
  ful_extra : Js.fields }.

Record Claim := { claim_order : Order; claim_extra : Js.fields }.

Record Product := { product_thumbnail : option string; product_extra : Js.fields }.
Record Variant := { variant_product : Product; variant_extra : Js.fields }.

Record Region := { region_tax_rate : Q }.
Record GiftCardEntity := {
  gce_order : option Order;
  gce_region : Region;
  gce_value : Z;
  gce_extra : Js.fields }.

Record Store := { store_swap_link_template : string }.

(** *** The aggregates as values *)

Module Enc.

Definition date_opt (d : option Z) : value :=
  match d with
  | Some t => VDate t
  | None => VNull
  end.

Definition list_opt {A} (f : A -> value) (l : option (list A)) : value :=
  match l with
  | Some l => VArr (map f l)
  | None => VUndefined
  end.

Definition discount (d : Discount) : value :=
  VObj [ ("code", VStr (discount_code d));
         ("rule", VObj [ ("value", Js.num (rule_value (discount_rule d)));
                         ("type", VStr (rule_type (discount_rule d))) ]) ].

Definition gift_card (g : GiftCard) : value :=
  VObj [ ("code", VStr (gc_code g)); ("value", Js.num (gc_value g)) ].

Definition line_item_fields (i : LineItem) : Js.fields :=
  ([ ("id", VStr (item_id i));
    ("thumbnail", Js.of_option_string (item_thumbnail i));
    ("quantity", Js.num (Zpos (item_quantity i)));
    ("unit_price", Js.num (item_unit_price i));
    ("is_return", VBool (item_is_return i));
    ("variant_id", Js.of_option_string (item_variant_id i)) ]
   ++ item_extra i).

Definition line_item (i : LineItem) : value := VObj (line_item_fields i).

Definition totals (t : Totals) : value :=
  VObj [ ("total", Js.num (totals_total t));
         ("original_total", Js.num (totals_original_total t));
         ("subtotal", Js.num (totals_subtotal t));
         ("tax_total", Js.num (totals_tax_total t));
         ("tax_lines", totals_tax_lines t) ].

Definition order_fields (o : Order) : Js.fields :=
  ([ ("email", VStr (order_email o));
    ("currency_code", VStr (order_currency_code o));
    ("tax_rate", VNum (order_tax_rate o));
    ("cart_id", Js.of_option_string (order_cart_id o));
    ("items", VArr (map line_item (order_items o)));
    ("discounts", list_opt discount (order_discounts o));
    ("gift_cards", list_opt gift_card (order_gift_cards o));
    ("created_at", VDate (order_created_at o));
    ("subtotal", Js.num (order_subtotal o));
    ("tax_total", Js.num (order_tax_total o));
    ("discount_total", Js.num (order_discount_total o));
    ("shipping_total", Js.num (order_shipping_total o));
    ("gift_card_total", Js.num (order_gift_card_total o));
    ("total", Js.num (order_total o)) ]
   ++ order_extra o).

Definition order (o : Order) : value := VObj (order_fields o).

Definition tax_line (t : TaxLine) : value := VObj [ ("rate", VNum (tax_rate t)) ].

Definition shipping_method (m : ShippingMethod) : value :=
  VObj ([ ("price", Js.num (sm_price m));
          ("tax_lines", VArr (map tax_line (sm_tax_lines m)));
          ("shipping_option", VObj [ ("provider_id", VStr (sm_provider_id m)) ]) ]
        ++ sm_extra m).

Definition return_item_fields (i : ReturnItem) : Js.fields :=
  ([ ("item_id", VStr (ri_item_id i));
    ("quantity", Js.num (Zpos (ri_quantity i))) ]
   ++ ri_extra i).

Definition return_item (i : ReturnItem) : value := VObj (return_item_fields i).

Definition return_order_fields (r : ReturnOrder) : Js.fields :=
  ([ ("items", VArr (map return_item (ret_items r)));
    ("shipping_method",
      match ret_shipping_method r with
      | Some m => shipping_method m
      | None => VNull
      end);
    ("shipping_data", ret_shipping_data r);
    ("refund_amount", Js.num (ret_refund_amount r));
    ("updated_at", VDate (ret_updated_at r)) ]
   ++ ret_extra r).

Definition return_order (r : ReturnOrder) : value := VObj (return_order_fields r).

Definition swap_fields (s : Swap) : Js.fields :=
  ([ ("return_order", return_order (swap_return_order s));
    ("cart_id", VStr (swap_cart_id s));
    ("order_id", VStr (swap_order_id s));
    ("additional_items", VArr (map line_item (swap_additional_items s)));
    ("shipping_methods", swap_shipping_methods s);
    ("difference_due", Js.num (swap_difference_due s));
    ("updated_at", VDate (swap_updated_at s)) ]
   ++ swap_extra s).

Definition swap (s : Swap) : value := VObj (swap_fields s).

Definition cart (c : Cart) : value :=
  VObj ([ ("items", VArr (map line_item (cart_items c)));
          ("context", cart_context c);
          ("total", Js.num (cart_total c));
          ("tax_total", Js.num (cart_tax_total c)) ]
        ++ cart_extra c).

Definition fulfillment (f : Fulfillment) : value :=
  VObj ([ ("shipped_at", date_opt (ful_shipped_at f));
          ("tracking_links", ful_tracking_links f);
          ("tracking_numbers", VArr (map VStr (ful_tracking_numbers f))) ]
        ++ ful_extra f).

Definition claim (c : Claim) : value :=
  VObj (("order", order (claim_order c)) :: claim_extra c).

Definition product_fields (p : Product) : Js.fields :=
  ("thumbnail", Js.of_option_string (product_thumbnail p)) :: product_extra p.

Definition variant (v : Variant) : value :=
  VObj (("product", VObj (product_fields (variant_product v))) :: variant_extra v).

Definition gift_card_entity_fields (g : GiftCardEntity) : Js.fields :=
  ([ ("order",
      match gce_order g with
      | Some o => order o
      | None => VNull
      end);
    ("region", VObj [ ("tax_rate", VNum (region_tax_rate (gce_region g))) ]);
    ("value", Js.num (gce_value g)) ]
   ++ gce_extra g).

Definition strings (l : list string) : value := VArr (map VStr l).

End Enc.

(** ** The collaborators *)

Record FindConfig := { select : list string; relations : list string }.

(** A domain service, as far as the plugin uses it: [retrieve(id, config)]. *)
Record Retriever (A : Type) := { retrieve : value -> FindConfig -> Outcome A }.
Arguments retrieve {A} r id config.

Record StoreService := { store_retrieve : Outcome Store }.

Record LineItemService :=
  { lineItem_list : list string -> FindConfig -> Outcome (list LineItem) }.

Record TotalsService := {
  getLineItemTotals : value -> value -> value -> Outcome Totals;
  getTotal : value -> Outcome Z;
  getRefundTotal : value -> list value -> Outcome Z }.

Record FulfillmentProviderService :=
  { retrieveDocuments : value -> value -> string -> Outcome (list value) }.

(** The optional third argument of a dispatch; its capability
    [createReturnInvoice] may be missing. *)
Record AttachmentGenerator :=
  { createReturnInvoice : option (value -> value -> Outcome value) }.

(** The first argument of the constructor: the services it destructures. *)
Record Container := {
  storeService : StoreService;
  orderService : Retriever Order;
  returnService : Retriever ReturnOrder;
  swapService : Retriever Swap;
  cartService : Retriever Cart;
  lineItemService : LineItemService;
  claimService : Retriever Claim;
  fulfillmentService : Retriever Fulfillment;
  fulfillmentProviderService : FulfillmentProviderService;
  totalsService : TotalsService;
  productVariantService : Retriever Variant }.

(** The second argument of the constructor: every option may be left out. *)
Record PluginOptions := {
  opt_fromEmail : option string;
  opt_transport : option value;
  opt_emailTemplatePath : option string;
  opt_templateMap : option (gmap string string) }.

Record Options := {
  fromEmail : string;
  transport : value;
  emailTemplatePath : string;
  templateMap : gmap string string }.

Inductive Settled := Resolved | Rejected.

(** What the service takes from its runtime: nodemailer, email-templates,
    the process environment and the calendar of [Date]. *)
Record Runtime := {
  createTransport : value -> value;
  Email_send : value -> SendOptions -> Settled;
  process_env : value;
  toDateString : Z -> string }.

(** The instance: a property that was never assigned is [None]. *)
Record SmtpService := {
  options_ : Options;
  fulfillmentProviderService_ : option FulfillmentProviderService;
  storeService_ : option StoreService;
  lineItemService_ : option LineItemService;
  orderService_ : option (Retriever Order);
  cartService_ : option (Retriever Cart);
  claimService_ : option (Retriever Claim);
  returnService_ : option (Retriever ReturnOrder);
  swapService_ : option (Retriever Swap);
  fulfillmentService_ : option (Retriever Fulfillment);
  totalsService_ : option TotalsService;
  productVariantService_ : option (Retriever Variant);
  giftCardService_ : option (Retriever GiftCardEntity);
  transporter : value }.

(** [constructor(container, options)], lines 45-89.  The defaults are
    overridden key by key; [this.giftCardService_] is not assigned. *)
Definition constructor (rt : Runtime) (c : Container) (options : PluginOptions)
    : SmtpService :=
  let options_ :=
    {| fromEmail := default "noreply@medusajs.com" (opt_fromEmail options);
       transport :=
         default (VObj [ ("sendmail", VBool true);
                         ("path", VStr "/usr/sbin/sendmail");
                         ("newline", VStr "unix") ])
                 (opt_transport options);
       emailTemplatePath :=
         default "data/emailTemplates" (opt_emailTemplatePath options);
       templateMap :=
         default {[ "order.placed" := "orderplaced" ]} (opt_templateMap options) |} in
  {| options_ := options_;
     fulfillmentProviderService_ := Some (fulfillmentProviderService c);
     storeService_ := Some (storeService c);
     lineItemService_ := Some (lineItemService c);
     orderService_ := Some (orderService c);
     cartService_ := Some (cartService c);
     claimService_ := Some (claimService c);
     returnService_ := Some (returnService c);
     swapService_ := Some (swapService c);
     fulfillmentService_ := Some (fulfillmentService c);
     totalsService_ := Some (totalsService c);
     productVariantService_ := Some (productVariantService c);
     giftCardService_ := None;
     transporter := createTransport rt (transport options_) |}.

(** [this.name], to call a method on it: [undefined.method] throws. *)
Definition member_of_this {S} (name : string) (slot : option S) : M S :=
  match slot with
  | Some s => ret s
  | None => throw (TypeError ("Cannot read properties of undefined: this." +:+ name))
  end.

Definition config_value (c : FindConfig) : value :=
  VObj ((if select c is [] then [] else [ ("select", Enc.strings (select c)) ])
        ++ (if relations c is [] then []
            else [ ("relations", Enc.strings (relations c)) ])).

(** [await service.retrieve(id, config)] *)
Definition retrieve_from {A} (name : string) (slot : option (Retriever A))
    (id : value) (config : FindConfig) : M A :=
  svc ← member_of_this name slot;
  call name "retrieve" [id; config_value config] (retrieve svc id config).

(** ** The result of a dispatch *)

Inductive Status := sent | failed | noTemplateFound | noDataFound.

Record NotificationResult := { to : value; status : Status; data : value }.

(** A stored notification, and the configuration of a resend. *)
Record Notification := {
  notification_event_name : string;
  notification_to : value;
  notification_data : value }.

Record ResendConfig := { config_to : value }.

(** [promise.then(() => 'sent').catch(() => 'failed')] *)
Definition settled_status (s : Settled) : Status :=
  match s with
  | Resolved => sent
  | Rejected => failed
  end.

(** ** The methods of the service *)

Section Service.

Variable rt : Runtime.
Variable this : SmtpService.

(** [extractLocale(fromOrder)], lines 1245-1262. *)
Definition extractLocale (fromOrder : Order) : M value :=
  if Js.truthy (Js.of_option_string (order_cart_id fromOrder)) then
    found ←
      try_catch
        (cart ← retrieve_from "cartService_" (cartService_ this)
                  (Js.of_option_string (order_cart_id fromOrder))
                  {| select := ["id"; "context"]; relations := [] |};
         if Js.truthy (cart_context cart)
            && Js.truthy (Js.member (cart_context cart) "locale")
         then ret (Some (Js.member (cart_context cart) "locale"))
         else ret None)
        (fun err =>
           emit (Call "console" "log" []);;
           emit (Call "console" "warn"
                   [VStr "Failed to gather context for order"]);;
           ret (Some VNull));
    match found with
    | Some locale => ret locale
    | None => ret VNull
    end
  else ret VNull.

(** [fetchAttachments(event, data, attachmentGenerator)], lines 91-132. *)
Definition fetchAttachments (event : string) (data : value)
    (attachmentGenerator : option AttachmentGenerator) : M (list Attachment) :=
  emit (Stage "fetchAttachments" event);;
  if String.eqb event "swap.created" || String.eqb event "order.return_requested"
  then
    let attachments : list Attachment := [] in
    return_request ← get data "return_request";
    shipping_method ← get return_request "shipping_method";
    shipping_data ← get return_request "shipping_data";
    attachments ←
      (if Js.truthy shipping_method then
         shipping_option ← get shipping_method "shipping_option";
         provider ← get shipping_option "provider_id";
         fps ← member_of_this "fulfillmentProviderService_"
                 (fulfillmentProviderService_ this);
         lbl ← call "fulfillmentProviderService_" "retrieveDocuments"
                 [provider; shipping_data; VStr "label"]
                 (retrieveDocuments fps provider shipping_data "label");
         labels ← Promise_all_map
                    (fun d =>
                       base_64 ← get d "base_64";
                       type ← get d "type";
                       ret {| att_name := "return-label";
                              att_base64 := base_64;
                              att_type := type |})
                    lbl;
         ret (attachments ++ labels)
       else ret attachments);
    match attachmentGenerator with
    | Some {| createReturnInvoice := Some createReturnInvoice |} =>
        order ← get data "order";
        return_request ← get data "return_request";
        items ← get return_request "items";
        base64 ← call "attachmentGenerator" "createReturnInvoice"
                   [order; items]
                   (createReturnInvoice order items);
        ret (attachments ++ [ {| att_name := "invoice";
                                 att_base64 := base64;
                                 att_type := VStr "application/pdf" |} ])
    | _ => ret attachments
    end
  else ret [].

(** [l.length], on a relation that may not have been loaded. *)
Definition length_of {A} (l : option (list A)) : M value :=
  match l with
  | Some l => ret (Js.num (Z.of_nat (length l)))
  | None => throw (TypeError "Cannot read properties of undefined: length")
  end.

(** [d.toDateString()], on a date that may be [null]. *)
Definition date_string (d : option Z) : M value :=
  match d with
  | Some t => ret (VStr (toDateString rt t))
  | None => throw (TypeError "Cannot read properties of null: toDateString")
  end.

(** [processItems_(items, taxRate, currencyCode)], lines 1208-1219. *)
Definition processItems_ (items : list LineItem) (taxRate : Q)
    (currencyCode : string) : list value :=
  map (fun i =>
         VObj (Js.assign
                 [ ("thumbnail",
                     Js.of_option_string (normalizeThumbUrl_ (item_thumbnail i)));
                   ("price",
                     VStr (humanPrice_
                             (inject_Z (item_unit_price i) * (1 + taxRate))
                             currencyCode
                           +:+ " " +:+ currencyCode)) ]
                 (Js.spread (Enc.line_item i) [])))
      items.

(** The callbacks of [order.discounts.map] and [order.gift_cards.map],
    lines 441-448 and 453-459, again at lines 547-554 and 559-565. *)
Definition discount_line (currencyCode : string) (discount : Discount) : value :=
  VObj [ ("is_giftcard", VBool false);
         ("code", VStr (discount_code discount));
         ("descriptor",
           VStr (Num.toString (rule_value (discount_rule discount))
                 +:+ (if String.eqb (rule_type (discount_rule discount)) "percentage"
                      then "%" else " " +:+ currencyCode))) ].

Definition gift_card_line (currencyCode : string) (gc : GiftCard) : value :=
  VObj [ ("is_giftcard", VBool true);
         ("code", VStr (gc_code gc));
         ("descriptor",
           VStr (Num.toString (gc_value gc) +:+ " " +:+ currencyCode)) ].

Definition order_relations : list string :=
  [ "customer"; "billing_address"; "shipping_address"; "discounts";
    "discounts.rule"; "shipping_methods"; "shipping_methods.shipping_option";
    "payments"; "fulfillments"; "returns"; "gift_cards";
    "gift_card_transactions" ].

(** [orderShipmentCreatedData({ id, fulfillment_id })], lines 353-396. *)
Definition orderShipmentCreatedData (eventData : value) : M value :=
  id ← get eventData "id";
  fulfillment_id ← get eventData "fulfillment_id";
  order ← retrieve_from "orderService_" (orderService_ this) id
            {| select := [ "shipping_total"; "discount_total"; "tax_total";
                           "refunded_total"; "gift_card_total"; "subtotal";
                           "total"; "refundable_amount" ];
               relations := order_relations |};
  shipment ← retrieve_from "fulfillmentService_" (fulfillmentService_ this)
               fulfillment_id
               {| select := []; relations := [ "items"; "tracking_links" ] |};
  locale ← extractLocale order;
  date ← date_string (ful_shipped_at shipment);
  ret (VObj (Js.literal
               [ ("locale", locale);
                 ("order", Enc.order order);
                 ("date", date);
                 ("email", VStr (order_email order));
                 ("fulfillment", Enc.fulfillment shipment);
                 ("tracking_links", ful_tracking_links shipment);
                 ("tracking_number",
                   VStr (Str.join ", " (ful_tracking_numbers shipment))) ])).

(** [orderCanceledData({ id })], lines 398-493. *)
Definition orderCanceledData (eventData : value) : M value :=
  id ← get eventData "id";
  order ← retrieve_from "orderService_" (orderService_ this) id
            {| select := [ "shipping_total"; "discount_total"; "tax_total";
                           "refunded_total"; "gift_card_total"; "subtotal";
                           "total" ];
               relations := order_relations |};
  let subtotal := order_subtotal order in
  let tax_total := order_tax_total order in
  let discount_total := order_discount_total order in
  let shipping_total := order_shipping_total order in
  let gift_card_total := order_gift_card_total order in
  let total := order_total order in
  let taxRate := (order_tax_rate order / 100)%Q in
  let currencyCode := Str.toUpperCase (order_currency_code order) in
  let items := processItems_ (order_items order) taxRate currencyCode in
  let discounts :=
    match order_discounts order with
    | Some ds => map (discount_line currencyCode) ds
    | None => []
    end in
  let giftCards :=
    match order_gift_cards order with
    | Some gcs => map (gift_card_line currencyCode) gcs
    | None => []
    end in
  (* [discounts.concat(giftCards)]: the new array is dropped *)
  let _ := discounts ++ giftCards in
  locale ← extractLocale order;
  has_discounts ← length_of (order_discounts order);
  has_gift_cards ← length_of (order_gift_cards order);
  ret (VObj (Js.assign
               [ ("locale", locale);
                 ("has_discounts", has_discounts);
                 ("has_gift_cards", has_gift_cards);
                 ("date", VStr (toDateString rt (order_created_at order)));
                 ("items", VArr items);
                 ("discounts", VArr discounts);
                 ("subtotal",
                   VStr (humanPrice_ (inject_Z subtotal * (1 + taxRate)) currencyCode
                         +:+ " " +:+ currencyCode));
                 ("gift_card_total",
                   VStr (humanPrice_ (inject_Z gift_card_total * (1 + taxRate))
                           currencyCode
                         +:+ " " +:+ currencyCode));
                 ("tax_total",
                   VStr (humanPrice_ (inject_Z tax_total) currencyCode
                         +:+ " " +:+ currencyCode));
                 ("discount_total",
                   VStr (humanPrice_ (inject_Z discount_total * (1 + taxRate))
                           currencyCode
                         +:+ " " +:+ currencyCode));
                 ("shipping_total",
                   VStr (humanPrice_ (inject_Z shipping_total * (1 + taxRate))
                           currencyCode
                         +:+ " " +:+ currencyCode));
                 ("total",
                   VStr (humanPrice_ (inject_Z total) currencyCode
                         +:+ " " +:+ currencyCode)) ]
               (Js.spread (Enc.order order) []))).

(** [await this.totalsService_.getLineItemTotals(item, owner, options)] *)
Definition lineItemTotals (item owner options : value) : M Totals :=
  ts ← member_of_this "totalsService_" (totalsService_ this);
  call "totalsService_" "getLineItemTotals" [item; owner; options]
    (getLineItemTotals ts item owner options).

(** [amount / quantity] *)
Definition per_unit (amount : Z) (quantity : positive) : Q :=
  (inject_Z amount / inject_Z (Zpos quantity))%Q.

(** [orderPlacedData({ id })], lines 495-616.  An item of [items] is the
    line item with the properties that the callback writes on it. *)
Definition orderPlacedData (eventData : value) : M value :=
  id ← get eventData "id";
  order ← retrieve_from "orderService_" (orderService_ this) id
            {| select := [ "shipping_total"; "discount_total"; "tax_total";
                           "refunded_total"; "gift_card_total"; "subtotal";
                           "total" ];
               relations := order_relations |};
  let tax_total := order_tax_total order in
  let shipping_total := order_shipping_total order in
  let gift_card_total := order_gift_card_total order in
  let total := order_total order in
  let currencyCode := Str.toUpperCase (order_currency_code order) in
  items ← Promise_all_map
            (fun i =>
               totals ← lineItemTotals (Enc.line_item i) (Enc.order order)
                          (VObj [ ("include_tax", VBool true);
                                  ("use_tax_lines", VBool true) ]);
               ret (totals,
                    VObj (Js.assign
                            [ ("totals", Enc.totals totals);
                              ("thumbnail",
                                Js.of_option_string
                                  (normalizeThumbUrl_ (item_thumbnail i)));
                              ("discounted_price",
                                VStr (humanPrice_
                                        (per_unit (totals_total totals)
                                           (item_quantity i))
                                        currencyCode
                                      +:+ " " +:+ currencyCode));
                              ("price",
                                VStr (humanPrice_
                                        (per_unit (totals_original_total totals)
                                           (item_quantity i))
                                        currencyCode
                                      +:+ " " +:+ currencyCode)) ]
                            (Enc.line_item_fields i))))
            (order_items order);
  let discounts :=
    match order_discounts order with
    | Some ds => map (discount_line currencyCode) ds
    | None => []
    end in
  let giftCards :=
    match order_gift_cards order with
    | Some gcs => map (gift_card_line currencyCode) gcs
    | None => []
    end in
  (* [discounts.concat(giftCards)]: the new array is dropped *)
  let _ := discounts ++ giftCards in
  locale ← extractLocale order;
  let discountTotal :=
    fold_left (fun acc i => acc + totals_original_total i.1 - totals_total i.1)
      items 0 in
  let discounted_subtotal :=
    fold_left (fun acc i => acc + totals_total i.1) items 0 in
  let subtotal :=
    fold_left (fun acc i => acc + totals_original_total i.1) items 0 in
  let subtotal_ex_tax :=
    fold_left (fun total i => total + totals_subtotal i.1) items 0 in
  has_discounts ← length_of (order_discounts order);
  has_gift_cards ← length_of (order_gift_cards order);
  ret (VObj (Js.assign
               [ ("locale", locale);
                 ("has_discounts", has_discounts);
                 ("has_gift_cards", has_gift_cards);
                 ("date", VStr (toDateString rt (order_created_at order)));
                 ("items", VArr (map snd items));
                 ("discounts", VArr discounts);
                 ("subtotal_ex_tax",
                   VStr (humanPrice_ (inject_Z subtotal_ex_tax) currencyCode
                         +:+ " " +:+ currencyCode));
                 ("subtotal",
                   VStr (humanPrice_ (inject_Z subtotal) currencyCode
                         +:+ " " +:+ currencyCode));
                 ("gift_card_total",
                   VStr (humanPrice_ (inject_Z gift_card_total) currencyCode
                         +:+ " " +:+ currencyCode));
                 ("tax_total",
                   VStr (humanPrice_ (inject_Z tax_total) currencyCode
                         +:+ " " +:+ currencyCode));
                 ("discount_total",
                   VStr (humanPrice_ (inject_Z discountTotal) currencyCode
                         +:+ " " +:+ currencyCode));
                 ("shipping_total",
                   VStr (humanPrice_ (inject_Z shipping_total) currencyCode
                         +:+ " " +:+ currencyCode));
                 ("total",
                   VStr (humanPrice_ (inject_Z total) currencyCode
                         +:+ " " +:+ currencyCode)) ]
               (Js.spread (Enc.order order) []))).

(** A variable that no scope declares: reading it throws. *)
Definition undeclared {A} (name : string) : M A := throw (ReferenceError name).

(** [gcCreatedData({ id })], lines 618-637.  The name [order] in the call
    of [extractLocale] is not declared anywhere. *)
Definition gcCreatedData (eventData : value) : M value :=
  id ← get eventData "id";
  giftCard ← retrieve_from "giftCardService_" (giftCardService_ this) id
               {| select := []; relations := [ "region"; "order" ] |};
  match gce_order giftCard with
  | None => ret VUndefined
  | Some giftCard_order =>
      let taxRate := (region_tax_rate (gce_region giftCard) / 100)%Q in
      order ← undeclared "order";
      locale ← extractLocale order;
      ret (VObj (Js.assign
                   [ ("locale", locale);
                     ("email", VStr (order_email giftCard_order));
                     ("display_value",
                       VNum (inject_Z (gce_value giftCard) * (1 + taxRate))) ]
                   (Js.spread (VObj (Enc.gift_card_entity_fields giftCard)) [])))
  end.

(** [await this.lineItemService_.list({ id: ids }, config)] *)
Definition lineItems (ids : list string) (config : FindConfig) : M (list LineItem) :=
  svc ← member_of_this "lineItemService_" (lineItemService_ this);
  call "lineItemService_" "list"
    [VObj [ ("id", Enc.strings ids) ]; config_value config]
    (lineItem_list svc ids config).

(** [items.find((oi) => oi.id === item_id)] *)
Definition find_item (items : list LineItem) (item_id' : string) : option LineItem :=
  List.find (fun oi => String.eqb (item_id oi) item_id') items.

(** The shipping total of a return, lines 706-714. *)
Definition shippingTotal (returnRequest : ReturnOrder) : Z :=
  match ret_shipping_method returnRequest with
  | Some shipping_method =>
      let base := sm_price shipping_method in
      base +
      fold_left
        (fun acc next =>
           Num.round (inject_Z acc + inject_Z base * (tax_rate next / 100)))
        (sm_tax_lines shipping_method) 0
  | None => 0
  end.

(** [returnRequestedData({ id, return_id })], lines 639-745.  The callback
    writes on the line item it finds; two return items are taken to name
    two different line items. *)
Definition returnRequestedData (eventData : value) : M value :=
  id ← get eventData "id";
  return_id ← get eventData "return_id";
  returnRequest ← retrieve_from "returnService_" (returnService_ this) return_id
                    {| select := [];
                       relations := [ "items"; "items.item";
                                      "items.item.tax_lines";
                                      "items.item.variant";
                                      "items.item.variant.product";
                                      "shipping_method";
                                      "shipping_method.tax_lines";
                                      "shipping_method.shipping_option" ] |};
  items ← lineItems (map ri_item_id (ret_items returnRequest))
            {| select := []; relations := [ "tax_lines" ] |};
  order ← retrieve_from "orderService_" (orderService_ this) id
            {| select := [ "total" ];
               relations := [ "items"; "items.tax_lines"; "discounts";
                              "discounts.rule"; "shipping_address"; "returns" ] |};
  let currencyCode := Str.toUpperCase (order_currency_code order) in
  returnItems ←
    Promise_all_map
      (fun i =>
         match find_item items (ri_item_id i) with
         | None => throw (TypeError "Cannot set properties of undefined: quantity")
         | Some found =>
             let found :=
               Js.assign
                 [ ("quantity", Js.num (Zpos (ri_quantity i)));
                   ("thumbnail",
                     Js.of_option_string (normalizeThumbUrl_ (item_thumbnail found))) ]
                 (Enc.line_item_fields found) in
             totals ← lineItemTotals (VObj found) (Enc.order order)
                        (VObj [ ("include_tax", VBool true);
                                ("use_tax_lines", VBool true) ]);
             ret (totals,
                  VObj (Js.assign
                          [ ("totals", Enc.totals totals);
                            ("price",
                              VStr (humanPrice_ (inject_Z (totals_total totals))
                                      currencyCode
                                    +:+ " " +:+ currencyCode));
                            ("tax_lines", totals_tax_lines totals) ]
                          found))
         end)
      (ret_items returnRequest);
  let item_subtotal :=
    fold_left (fun acc next => acc + totals_total next.1) returnItems 0 in
  let shippingTotal := shippingTotal returnRequest in
  locale ← extractLocale order;
  ret (VObj (Js.literal
               [ ("locale", locale);
                 ("has_shipping",
                   VBool (bool_decide (is_Some (ret_shipping_method returnRequest))));
                 ("email", VStr (order_email order));
                 ("items", VArr (map snd returnItems));
                 ("subtotal",
                   VStr (humanPrice_ (inject_Z item_subtotal) currencyCode
                         +:+ " " +:+ currencyCode));
                 ("shipping_total",
                   VStr (humanPrice_ (inject_Z shippingTotal) currencyCode
                         +:+ " " +:+ currencyCode));
                 ("refund_amount",
                   VStr (humanPrice_ (inject_Z (ret_refund_amount returnRequest))
                           currencyCode
                         +:+ " " +:+ currencyCode));
                 ("return_request",
                   VObj (Js.assign
                           [ ("refund_amount",
                               VStr (humanPrice_
                                       (inject_Z (ret_refund_amount returnRequest))
                                       currencyCode
                                     +:+ " " +:+ currencyCode)) ]
                           (Js.spread (Enc.return_order returnRequest) [])));
                 ("order", Enc.order order);
                 ("date", VStr (toDateString rt (ret_updated_at returnRequest))) ])).

(** [itemsReturnedData(data)], lines 1003-1005. *)
Definition itemsReturnedData (data : value) : M value :=
  returnRequestedData data.

(** An element of [decoratedItems]: the cart's line item, its totals, and
    the object built from them. *)
Record Decorated := {
  di_item : LineItem;
  di_totals : Totals;
  di_object : value }.

Definition is_return (next : Decorated) : bool := item_is_return (di_item next).

Definition variant_id (next : Decorated) : value :=
  Js.of_option_string (item_variant_id (di_item next)).

(** [store.swap_link_template.replace(/\{cart_id\}/, swap.cart_id)] *)
Definition swap_link (store : Store) (swap : Swap) : string :=
  Str.replace_first "{cart_id}" (swap_cart_id swap) (store_swap_link_template store).

(** [returnRequest.items = returnRequest.items.map(...)], lines 772-778 and
    898-904: the return order of the swap with each item joined to its
    line item.  The swap holds the same object, so it sees the new items. *)
Definition joined_return_order (returnRequest : ReturnOrder)
    (items : list LineItem) : value :=
  VObj (Js.set_field "items"
          (VArr (map (fun item =>
                        let found := find_item items (ri_item_id item) in
                        VObj (Js.assign
                                [ ("item",
                                    match found with
                                    | Some f => Enc.line_item f
                                    | None => VUndefined
                                    end) ]
                                (Js.spread (Enc.return_item item) [])))
                     (ret_items returnRequest)))
          (Enc.return_order_fields returnRequest)).

Definition swap_with (swap : Swap) (return_order : value) : value :=
  VObj (Js.set_field "return_order" return_order (Enc.swap_fields swap)).

(** [returnTotal] and [additionalTotal] of [swapReceivedData],
    lines 826-838. *)
Definition swapReceived_returnTotal (decoratedItems : list Decorated) : Z :=
  fold_left
    (fun acc next =>
       if is_return next
       then acc + -1 * (totals_subtotal (di_totals next)
                        + totals_tax_total (di_totals next))
       else acc)
    decoratedItems 0.

Definition swapReceived_additionalTotal (decoratedItems : list Decorated) : Z :=
  fold_left
    (fun acc next =>
       if negb (is_return next)
       then acc + totals_subtotal (di_totals next)
            + totals_tax_total (di_totals next)
       else acc)
    decoratedItems 0.

(** [swapReceivedData({ id })], lines 747-871. *)
Definition swapReceivedData (eventData : value) : M value :=
  id ← get eventData "id";
  store_svc ← member_of_this "storeService_" (storeService_ this);
  store ← call "storeService_" "retrieve" [] (store_retrieve store_svc);
  swap ← retrieve_from "swapService_" (swapService_ this) id
           {| select := [];
              relations := [ "additional_items"; "additional_items.tax_lines";
                             "return_order"; "return_order.items";
                             "return_order.items.item";
                             "return_order.shipping_method";
                             "return_order.shipping_method.shipping_option" ] |};
  let returnRequest := swap_return_order swap in
  items ← lineItems (map ri_item_id (ret_items returnRequest))
            {| select := []; relations := [ "tax_lines" ] |};
  let return_request := joined_return_order returnRequest items in
  let swapLink := swap_link store swap in
  order ← retrieve_from "orderService_" (orderService_ this)
            (VStr (swap_order_id swap))
            {| select := [ "total" ];
               relations := [ "items"; "discounts"; "discounts.rule";
                              "shipping_address"; "swaps";
                              "swaps.additional_items";
                              "swaps.additional_items.tax_lines" ] |};
  cart ← retrieve_from "cartService_" (cartService_ this)
           (VStr (swap_cart_id swap))
           {| select := [ "total"; "tax_total"; "discount_total";
                          "shipping_total"; "subtotal" ];
              relations := [] |};
  let currencyCode := Str.toUpperCase (order_currency_code order) in
  decoratedItems ←
    Promise_all_map
      (fun i =>
         totals ← lineItemTotals (Enc.line_item i) (Enc.cart cart)
                    (VObj [ ("include_tax", VBool true) ]);
         ret {| di_item := i;
                di_totals := totals;
                di_object :=
                  VObj (Js.assign
                          [ ("totals", Enc.totals totals);
                            ("price",
                              VStr (humanPrice_
                                      (inject_Z (totals_subtotal totals
                                                 + totals_tax_total totals))
                                      currencyCode)) ]
                          (Js.spread (Enc.line_item i) [])) |})
      (cart_items cart);
  let returnTotal := swapReceived_returnTotal decoratedItems in
  let additionalTotal := swapReceived_additionalTotal decoratedItems in
  let refundAmount := ret_refund_amount (swap_return_order swap) in
  locale ← extractLocale order;
  ret (VObj (Js.literal
               [ ("locale", locale);
                 ("swap", swap_with swap return_request);
                 ("order", Enc.order order);
                 ("return_request", return_request);
                 ("date", VStr (toDateString rt (swap_updated_at swap)));
                 ("swap_link", VStr swapLink);
                 ("email", VStr (order_email order));
                 ("items",
                   VArr (map di_object
                           (List.filter (fun di => negb (is_return di)) decoratedItems)));
                 ("return_items",
                   VArr (map di_object
                           (List.filter (fun di => is_return di) decoratedItems)));
                 ("return_total",
                   VStr (humanPrice_ (inject_Z returnTotal) currencyCode
                         +:+ " " +:+ currencyCode));
                 ("tax_total",
                   VStr (humanPrice_ (inject_Z (cart_total cart)) currencyCode
                         +:+ " " +:+ currencyCode));
                 ("refund_amount",
                   VStr (humanPrice_ (inject_Z refundAmount) currencyCode
                         +:+ " " +:+ currencyCode));
                 ("additional_total",
                   VStr (humanPrice_ (inject_Z additionalTotal) currencyCode
                         +:+ " " +:+ currencyCode)) ])).

(** [returnTotal] and [additionalTotal] of [swapCreatedData],
    lines 958-972. *)
Definition swapCreated_returnTotal (decoratedItems : list Decorated) : Z :=
  fold_left
    (fun acc next =>
       let total := totals_total (di_totals next) in
       if is_return next && Js.truthy (variant_id next)
       then acc + -1 * total
       else acc)
    decoratedItems 0.

Definition swapCreated_additionalTotal (decoratedItems : list Decorated) : Z :=
  fold_left
    (fun acc next =>
       let total := totals_total (di_totals next) in
       if negb (is_return next) then acc + total else acc)
    decoratedItems 0.

(** [swapCreatedData({ id })], lines 873-1001. *)
Definition swapCreatedData (eventData : value) : M value :=
  id ← get eventData "id";
  store_svc ← member_of_this "storeService_" (storeService_ this);
  store ← call "storeService_" "retrieve" [] (store_retrieve store_svc);
  swap ← retrieve_from "swapService_" (swapService_ this) id
           {| select := [];
              relations := [ "additional_items"; "additional_items.tax_lines";
                             "return_order"; "return_order.items";
                             "return_order.items.item";
                             "return_order.shipping_method";
                             "return_order.shipping_method.shipping_option" ] |};
  let returnRequest := swap_return_order swap in
  items ← lineItems (map ri_item_id (ret_items returnRequest))
            {| select := []; relations := [ "tax_lines" ] |};
  let return_request := joined_return_order returnRequest items in
  let swapLink := swap_link store swap in
  order ← retrieve_from "orderService_" (orderService_ this)
            (VStr (swap_order_id swap))
            {| select := [ "total" ];
               relations := [ "items"; "items.tax_lines"; "discounts";
                              "discounts.rule"; "shipping_address"; "swaps";
                              "swaps.additional_items";
                              "swaps.additional_items.tax_lines" ] |};
  cart ← retrieve_from "cartService_" (cartService_ this)
           (VStr (swap_cart_id swap))
           {| select := [ "total"; "tax_total"; "discount_total";
                          "shipping_total"; "subtotal" ];
              relations := [] |};
  let currencyCode := Str.toUpperCase (order_currency_code order) in
  decoratedItems ←
    Promise_all_map
      (fun i =>
         totals ← lineItemTotals (Enc.line_item i) (Enc.cart cart)
                    (VObj [ ("include_tax", VBool true) ]);
         ret {| di_item := i;
                di_totals := totals;
                di_object :=
                  VObj (Js.assign
                          [ ("totals", Enc.totals totals);
                            ("tax_lines", totals_tax_lines totals);
                            ("price",
                              VStr (humanPrice_
                                      (per_unit (totals_original_total totals)
                                         (item_quantity i))
                                      currencyCode
                                    +:+ " " +:+ currencyCode));
                            ("discounted_price",
                              VStr (humanPrice_
                                      (per_unit (totals_total totals)
                                         (item_quantity i))
                                      currencyCode
                                    +:+ " " +:+ currencyCode)) ]
                          (Js.spread (Enc.line_item i) [])) |})
      (cart_items cart);
  let returnTotal := swapCreated_returnTotal decoratedItems in
  let additionalTotal := swapCreated_additionalTotal decoratedItems in
  let refundAmount := ret_refund_amount (swap_return_order swap) in
  locale ← extractLocale order;
  ret (VObj (Js.literal
               [ ("locale", locale);
                 ("swap", swap_with swap return_request);
                 ("order", Enc.order order);
                 ("return_request", return_request);
                 ("date", VStr (toDateString rt (swap_updated_at swap)));
                 ("swap_link", VStr swapLink);
                 ("email", VStr (order_email order));
                 ("items",
                   VArr (map di_object
                           (List.filter (fun di => negb (is_return di)) decoratedItems)));
                 ("return_items",
                   VArr (map di_object
                           (List.filter (fun di => is_return di) decoratedItems)));
                 ("return_total",
                   VStr (humanPrice_ (inject_Z returnTotal) currencyCode
                         +:+ " " +:+ currencyCode));
                 ("refund_amount",
                   VStr (humanPrice_ (inject_Z refundAmount) currencyCode
                         +:+ " " +:+ currencyCode));
                 ("additional_total",
                   VStr (humanPrice_ (inject_Z additionalTotal) currencyCode
                         +:+ " " +:+ currencyCode)) ])).

(** [claimShipmentCreatedData({ id, fulfillment_id })], lines 1153-1173. *)
Definition claimShipmentCreatedData (eventData : value) : M value :=
  id ← get eventData "id";
  fulfillment_id ← get eventData "fulfillment_id";
  claim ← retrieve_from "claimService_" (claimService_ this) id
            {| select := [];
               relations := [ "order"; "order.items"; "order.shipping_address" ] |};
  shipment ← retrieve_from "fulfillmentService_" (fulfillmentService_ this)
               fulfillment_id
               {| select := []; relations := [ "tracking_links" ] |};
  locale ← extractLocale (claim_order claim);
  ret (VObj (Js.literal
               [ ("locale", locale);
                 ("email", VStr (order_email (claim_order claim)));
                 ("claim", Enc.claim claim);
                 ("order", Enc.order (claim_order claim));
                 ("fulfillment", Enc.fulfillment shipment);
                 ("tracking_links", ful_tracking_links shipment);
                 ("tracking_number",
                   VStr (Str.join ", " (ful_tracking_numbers shipment))) ])).

(** [restockNotificationData({ variant_id, emails })], lines 1175-1194. *)
Definition restockNotificationData (eventData : value) : M value :=
  variant_id ← get eventData "variant_id";
  emails ← get eventData "emails";
  variant ← retrieve_from "productVariantService_" (productVariantService_ this)
              variant_id
              {| select := []; relations := [ "product" ] |};
  let thumb :=
    if Js.truthy (Js.of_option_string (product_thumbnail (variant_product variant)))
    then Js.of_option_string
           (normalizeThumbUrl_ (product_thumbnail (variant_product variant)))
    else VUndefined in
  ret (VObj (Js.literal
               [ ("product",
                   VObj (Js.assign [ ("thumbnail", thumb) ]
                           (Js.spread
                              (VObj (Enc.product_fields (variant_product variant)))
                              [])));
                 ("variant", Enc.variant variant);
                 ("variant_id", variant_id);
                 ("emails", emails) ])).

(** [userPasswordResetData(data)], lines 1196-1198. *)
Definition userPasswordResetData (data : value) : M value := ret data.

(** [customerPasswordResetData(data)], lines 1200-1202. *)
Definition customerPasswordResetData (data : value) : M value := ret data.

(** [inviteData(data)], lines 1204-1206. *)
Definition inviteData (data : value) : M value :=
  user_email ← get data "user_email";
  ret (VObj (Js.spread data (Js.literal [ ("email", user_email) ]))).

(** The item objects of [swapShipmentCreatedData], lines 1063-1075 and
    1110-1122: [{ ...source, thumbnail, price, discounted_price, quantity }]. *)
Definition shipment_item (source : value) (thumbnail : option string)
    (totals : Totals) (quantity : positive) (currencyCode : string) : value :=
  VObj (Js.assign
          [ ("thumbnail", Js.of_option_string (normalizeThumbUrl_ thumbnail));
            ("price",
              VStr (humanPrice_ (per_unit (totals_original_total totals) quantity)
                      currencyCode
                    +:+ " " +:+ currencyCode));
            ("discounted_price",
              VStr (humanPrice_ (per_unit (totals_total totals) quantity)
                      currencyCode
                    +:+ " " +:+ currencyCode));
            ("quantity", Js.num (Zpos quantity)) ]
          (Js.spread source [])).

(** [swapShipmentCreatedData({ id, fulfillment_id })], lines 1007-1151. *)
Definition swapShipmentCreatedData (eventData : value) : M value :=
  id ← get eventData "id";
  fulfillment_id ← get eventData "fulfillment_id";
  swap ← retrieve_from "swapService_" (swapService_ this) id
           {| select := [];
              relations := [ "shipping_address"; "shipping_methods";
                             "shipping_methods.tax_lines"; "additional_items";
                             "additional_items.tax_lines"; "return_order";
                             "return_order.items" ] |};
  order ← retrieve_from "orderService_" (orderService_ this)
            (VStr (swap_order_id swap))
            {| select := [];
               relations := [ "region"; "items"; "items.tax_lines"; "discounts";
                              "discounts.rule"; "swaps"; "swaps.additional_items";
                              "swaps.additional_items.tax_lines" ] |};
  cart ← retrieve_from "cartService_" (cartService_ this)
           (VStr (swap_cart_id swap))
           {| select := [ "total"; "tax_total"; "discount_total";
                          "shipping_total"; "subtotal" ];
              relations := [] |};
  let returnRequest := swap_return_order swap in
  items ← lineItems (map ri_item_id (ret_items returnRequest))
            {| select := []; relations := [ "tax_lines" ] |};
  let taxRate := (order_tax_rate order / 100)%Q in
  let currencyCode := Str.toUpperCase (order_currency_code order) in
  returnItems ←
    Promise_all_map
      (fun i =>
         let found := find_item items (ri_item_id i) in
         totals ← lineItemTotals (Enc.return_item i) (Enc.cart cart)
                    (VObj [ ("include_tax", VBool true) ]);
         match found with
         | None => throw (TypeError "Cannot read properties of undefined: thumbnail")
         | Some found =>
             ret (shipment_item (Enc.line_item found) (item_thumbnail found)
                    totals (ri_quantity i) currencyCode)
         end)
      (ret_items (swap_return_order swap));
  ts ← member_of_this "totalsService_" (totalsService_ this);
  returnTotal ← call "totalsService_" "getRefundTotal"
                  [Enc.order order; VArr returnItems]
                  (getRefundTotal ts (Enc.order order) returnItems);
  let constructedOrder :=
    VObj (Js.assign
            [ ("shipping_methods", swap_shipping_methods swap);
              ("items", VArr (map Enc.line_item (swap_additional_items swap))) ]
            (Js.spread (Enc.order order) [])) in
  ts ← member_of_this "totalsService_" (totalsService_ this);
  additionalTotal ← call "totalsService_" "getTotal" [constructedOrder]
                      (getTotal ts constructedOrder);
  let refundAmount := ret_refund_amount (swap_return_order swap) in
  shipment ← retrieve_from "fulfillmentService_" (fulfillmentService_ this)
               fulfillment_id
               {| select := []; relations := [ "tracking_links" ] |};
  locale ← extractLocale order;
  items ← Promise_all_map
            (fun i =>
               totals ← lineItemTotals (Enc.line_item i) (Enc.cart cart)
                          (VObj [ ("include_tax", VBool true) ]);
               ret (shipment_item (Enc.line_item i) (item_thumbnail i)
                      totals (item_quantity i) currencyCode))
            (swap_additional_items swap);
  ret (VObj (Js.literal
               [ ("locale", locale);
                 ("swap", Enc.swap swap);
                 ("order", Enc.order order);
                 ("items", VArr items);
                 ("date", VStr (toDateString rt (swap_updated_at swap)));
                 ("email", VStr (order_email order));
                 ("tax_amount",
                   VStr (humanPrice_ (inject_Z (cart_tax_total cart)) currencyCode
                         +:+ " " +:+ currencyCode));
                 ("paid_total",
                   VStr (humanPrice_ (inject_Z (swap_difference_due swap))
                           currencyCode
                         +:+ " " +:+ currencyCode));
                 ("return_total",
                   VStr (humanPrice_ (inject_Z returnTotal) currencyCode
                         +:+ " " +:+ currencyCode));
                 ("refund_amount",
                   VStr (humanPrice_ (inject_Z refundAmount) currencyCode
                         +:+ " " +:+ currencyCode));
                 ("additional_total",
                   VStr (humanPrice_ (inject_Z additionalTotal) currencyCode
                         +:+ " " +:+ currencyCode));
                 ("fulfillment", Enc.fulfillment shipment);
                 ("tracking_links", ful_tracking_links shipment);
                 ("tracking_number",
                   VStr (Str.join ", " (ful_tracking_numbers shipment))) ])).

(** [fetchData(event, eventData, attachmentGenerator)], lines 134-172. *)
Definition fetchData (event : string) (eventData : value)
    (attachmentGenerator : option AttachmentGenerator) : M value :=
  emit (Stage "fetchData" event);;
  if String.eqb event "order.return_requested" then returnRequestedData eventData
  else if String.eqb event "swap.shipment_created" then swapShipmentCreatedData eventData
  else if String.eqb event "claim.shipment_created" then claimShipmentCreatedData eventData
  else if String.eqb event "order.items_returned" then itemsReturnedData eventData
  else if String.eqb event "swap.received" then swapReceivedData eventData
  else if String.eqb event "swap.created" then swapCreatedData eventData
  else if String.eqb event "gift_card.created" then gcCreatedData eventData
  else if String.eqb event "order.gift_card_created" then gcCreatedData eventData
  else if String.eqb event "order.placed" then orderPlacedData eventData
  else if String.eqb event "order.shipment_created" then orderShipmentCreatedData eventData
  else if String.eqb event "order.canceled" then orderCanceledData eventData
  else if String.eqb event "user.password_reset" then userPasswordResetData eventData
  else if String.eqb event "customer.password_reset" then customerPasswordResetData eventData
  else if String.eqb event "invite.created" then inviteData eventData
  else if String.eqb event "restock-notification.restocked"
       then restockNotificationData eventData
  else ret eventData.

(** [getTemplateNameForEvent(eventName)], lines 174-176.  [None] is the
    [false] of the source: the event has no entry, or an empty one. *)
Definition getTemplateNameForEvent (eventName : string) : option string :=
  match templateMap (options_ this) !! eventName with
  | Some templateName =>
      if Js.truthy (VStr templateName) then Some templateName else None
  | None => None
  end.

(** The argument of [new Email(...)], lines 219-231 and 281-293. *)
Definition email_config : value :=
  VObj [ ("message", VObj [ ("from", VStr (fromEmail (options_ this))) ]);
         ("transport", transporter this);
         ("views",
           VObj [ ("root", VStr (emailTemplatePath (options_ this)));
                  ("options", VObj [ ("extension", VStr "njk") ]) ]);
         ("send", VBool true) ].

(** [await email.send(sendOptions).then(() => 'sent').catch(() => 'failed')] *)
Definition send (sendOptions : SendOptions) : M Status :=
  emit (Send sendOptions);;
  ret (settled_status (Email_send rt email_config sendOptions)).

(** The callback of [attachments.map], lines 208-216 and 271-279. *)
Definition message_attachment (a : Attachment) : MessageAttachment :=
  {| content := att_base64 a;
     filename := att_name a;
     type := att_type a;
     disposition := "attachment";
     contentId := att_name a |}.

(** [sendOptions.message.attachments = l], and [delete] of it. *)
Definition set_attachments (sendOptions : SendOptions)
    (l : option (list MessageAttachment)) : SendOptions :=
  {| template := template sendOptions;
     message_to := message_to sendOptions;
     message_attachments := l;
     locals_data := locals_data sendOptions;
     locals_env := locals_env sendOptions |}.

(** [sendNotification(event, eventData, attachmentGenerator)],
    lines 178-243. *)
Definition sendNotification (event : string) (eventData : value)
    (attachmentGenerator : option AttachmentGenerator) : M NotificationResult :=
  match getTemplateNameForEvent event with
  | None => ret {| to := VStr ""; status := noDataFound; data := VObj [] |}
  | Some templateName =>
      data ← fetchData event eventData attachmentGenerator;
      attachments ← fetchAttachments event data attachmentGenerator;
      email ← get data "email";
      let sendOptions :=
        {| template := templateName;
           message_to := email;
           message_attachments := None;
           locals_data := data;
           locals_env := process_env rt |} in
      let sendOptions :=
        if attachments is [] then sendOptions
        else set_attachments sendOptions
               (Some (map message_attachment attachments)) in
      status ← send sendOptions;
      let sendOptions := set_attachments sendOptions None in
      ret {| to := message_to sendOptions;
             status := status;
             data := Js.or (locals_data sendOptions) (VObj []) |}
  end.

(** [resendNotification(notification, config, attachmentGenerator)],
    lines 245-304. *)
Definition resendNotification (notification : Notification)
    (config : ResendConfig) (attachmentGenerator : option AttachmentGenerator)
    : M NotificationResult :=
  match getTemplateNameForEvent (notification_event_name notification) with
  | None =>
      ret {| to := notification_to notification;
             status := noTemplateFound;
             data := notification_data notification |}
  | Some templateName =>
      let sendOptions :=
        {| template := templateName;
           message_to := Js.or (config_to config) (notification_to notification);
           message_attachments := None;
           locals_data := notification_data notification;
           locals_env := process_env rt |} in
      dynamic_template_data ←
        get (notification_data notification) "dynamic_template_data";
      attachments ← fetchAttachments (notification_event_name notification)
                      dynamic_template_data attachmentGenerator;
      let sendOptions :=
        set_attachments sendOptions (Some (map message_attachment attachments)) in
      status ← send sendOptions;
      let sendOptions := set_attachments sendOptions None in
      ret {| to := message_to sendOptions;
             status := status;
             data := Js.or (locals_data sendOptions) (VObj []) |}
  end.

(** The argument of [sendEmail]: [templateName], [to], and the properties
    that the template reads. *)
Record EmailOptions := {
  eo_templateName : string;
  eo_to : value;
  eo_extra : Js.fields }.

Definition email_options (options : EmailOptions) : value :=
  VObj ([ ("templateName", VStr (eo_templateName options));
          ("to", eo_to options) ]
        ++ eo_extra options).

(** [sendEmail(options)], lines 314-351. *)
Definition sendEmail (options : EmailOptions) : M NotificationResult :=
  try_catch
    (status ← send {| template := eo_templateName options;
                      message_to := eo_to options;
                      message_attachments := None;
                      locals_data := email_options options;
                      locals_env := process_env rt |};
     ret {| to := eo_to options;
            status := status;
            data := email_options options |})
    (fun error => throw error).

End Service.

(** ** The subscriber *)

Section Subscriber.

Variable rt : Runtime.
Variable smtpService : SmtpService.

(** [Buffer.from(JSON.stringify(v)).toString('base64')], taken from the
    runtime. *)
Variable base64_of_json : value -> string.

(** The handler that [UserSubscriber] registers for
    [customer.password_reset], lines 1273-1282.  Its parameter is [data];
    the name [payload] that it reads is not declared anywhere. *)
Definition customer_password_reset_handler (data : value) : M unit :=
  payload ← undeclared "payload";
  email ← get payload "email";
  payload ← undeclared "payload";
  token ← get payload "token";
  sendNotification rt smtpService "customer.password_reset"
    (VObj (Js.assign
             [ ("payload",
                 VStr (base64_of_json
                         (VObj [ ("email", email); ("token", token) ]))) ]
             (Js.spread data [])))
    None;;
  ret tt.

(** [constructor({ smtpService, eventBusService })], lines 1268-1283: the
    subscriptions it makes on the event bus. *)
Definition UserSubscriber : list (string * (value -> M unit)) :=
  [ ("customer.password_reset", customer_password_reset_handler) ].

End Subscriber.

(** The labels of the [switch] of [fetchData], lines 136-164. *)
Definition fetchData_cases : list string :=
  [ "order.return_requested"; "swap.shipment_created"; "claim.shipment_created";
    "order.items_returned"; "swap.received"; "swap.created"; "gift_card.created";
    "order.gift_card_created"; "order.placed"; "order.shipment_created";
    "order.canceled"; "user.password_reset"; "customer.password_reset";
    "invite.created"; "restock-notification.restocked" ].

(** The attachment that [fetchAttachments] makes of a label document,
    lines 107-111. *)
Definition return_label (d : value) : Attachment :=
  {| att_name := "return-label";
     att_base64 := Js.member d "base_64";
     att_type := Js.member d "type" |}.

(** ** Decimal digits *)

(** The character of a digit, and the last two digits of [n]. *)
Definition digit (d : Z) : ascii := pretty_N_char (Z.to_N d).

Definition cents (n : Z) : string :=
  String (digit ((n / 10) mod 10)) (String (digit (n mod 10)) EmptyString).

(** ** Orders behind a message *)

(** An order that the order service of the instance returned, or the order
    of a claim that its claim service returned. *)
Definition retrieved_order (this : SmtpService) (order : Order) : Prop :=
  (exists svc id config,
     orderService_ this = Some svc /\ retrieve svc id config = Return order) \/
  (exists svc id config claim,
     claimService_ this = Some svc /\ retrieve svc id config = Return claim /\
     order = claim_order claim).

(** The events whose assembler writes [email: order.email] in its context. *)
Definition order_events : list string :=
  [ "order.shipment_created"; "order.return_requested"; "order.items_returned";
    "swap.received"; "swap.created"; "swap.shipment_created";
    "claim.shipment_created" ].

(** ** Observations on a dispatch *)

(** What a projection [f] of the effects sees of a computation. *)
Definition observe {X A} (f : Effect -> option X) (m : M A) : list X :=
  omap f (trace m).

Definition send_of (e : Effect) : option SendOptions :=
  if e is Send sendOptions then Some sendOptions else None.

Definition stage_of (e : Effect) : option string :=
  if e is Stage method _ then Some method else None.

(** The messages handed to the mail client, and the stages entered, in
    order. *)
Abbreviation sends := (observe send_of).
Abbreviation stages := (observe stage_of).

(** The contribution of one tax line to the shipping total of a return,
    rounded on its own: [Math.round(base * (rate / 100))]. *)
Definition rounded_tax (base : Z) (line : TaxLine) : Z :=
  Num.round (inject_Z base * (tax_rate line / 100)).

(** The same runtime with another mail transport. *)
Definition with_Email_send (rt : Runtime)
    (send' : value -> SendOptions -> Settled) : Runtime :=
  {| createTransport := createTransport rt;
     Email_send := send';
     process_env := process_env rt;
     toDateString := toDateString rt |}.

(** ** A small shop, for examples *)

Module Sample.

Definition rt : Runtime :=
  {| createTransport := fun transport => transport;
     Email_send := fun _ _ => Resolved;
     process_env := VObj [];
     toDateString := fun _ => "Thu Jan 01 1970" |}.

(** A returned line without a variant, and an additional line. *)
Definition returned_line : LineItem :=
  {| item_id := "item_returned";
     item_thumbnail := None;
     item_quantity := 1;
     item_unit_price := 1000;
     item_is_return := true;
     item_variant_id := None;
     item_extra := [] |}.

Definition additional_line : LineItem :=
  {| item_id := "item_additional";
     item_thumbnail := Some "//cdn.x/img.png";
     item_quantity := 1;
     item_unit_price := 500;
     item_is_return := false;
     item_variant_id := Some "variant_additional";
     item_extra := [] |}.

Definition ten_percent : Discount :=
  {| discount_code := "TEN";
     discount_rule := {| rule_value := 10; rule_type := "percentage" |} |}.

Definition five_off : Discount :=
  {| discount_code := "FIVE";
     discount_rule := {| rule_value := 500; rule_type := "fixed" |} |}.

Definition gift : GiftCard := {| gc_code := "GIFT"; gc_value := 2000 |}.

Definition order : Order :=
  {| order_email := "buyer@example.com";
     order_currency_code := "usd";
     order_tax_rate := 0;
     order_cart_id := None;
     order_items := [ additional_line ];
     order_discounts := Some [ ten_percent; five_off ];
     order_gift_cards := Some [ gift ];
     order_created_at := 0;
     order_subtotal := 500;
     order_tax_total := 0;
     order_discount_total := 0;
     order_shipping_total := 0;
     order_gift_card_total := 0;
     order_total := 500;
     order_extra := [ ("id", VStr "order_1") ] |}.

Definition return_order : ReturnOrder :=
  {| ret_items := [ {| ri_item_id := "item_returned";
                       ri_quantity := 1;
                       ri_extra := [] |} ];
     ret_shipping_method := None;
     ret_shipping_data := VNull;
     ret_refund_amount := 500;
     ret_updated_at := 0;
     ret_extra := [] |}.

Definition swap : Swap :=
  {| swap_return_order := return_order;
     swap_cart_id := "cart_1";
     swap_order_id := "order_1";
     swap_additional_items := [ additional_line ];
     swap_shipping_methods := VArr [];
     swap_difference_due := 0;
     swap_updated_at := 0;
     swap_extra := [] |}.

Definition cart : Cart :=
  {| cart_items := [ returned_line; additional_line ];
     cart_context := VNull;
     cart_total := 0;
     cart_tax_total := 0;
     cart_extra := [] |}.

(** Totals without tax or discount: the unit price times the quantity. *)
Definition totals_of (item : value) : Totals :=
  let amount :=
    match Js.member item "unit_price", Js.member item "quantity" with
    | VNum p, VNum q => Qfloor (p * q)
    | _, _ => 0
    end in
  {| totals_total := amount;
     totals_original_total := amount;
     totals_subtotal := amount;
     totals_tax_total := 0;
     totals_tax_lines := VArr [] |}.

Definition unknown {A} : Retriever A :=
  {| retrieve := fun _ _ => Throw (Rejection (VStr "not found")) |}.

Definition container : Container :=
  {| storeService :=
       {| store_retrieve :=
            Return {| store_swap_link_template := "https://shop.x/swap/{cart_id}" |} |};
     orderService := {| retrieve := fun _ _ => Return order |};
     returnService := {| retrieve := fun _ _ => Return return_order |};
     swapService := {| retrieve := fun _ _ => Return swap |};
     cartService := {| retrieve := fun _ _ => Return cart |};
     lineItemService :=
       {| lineItem_list := fun _ _ => Return [ returned_line; additional_line ] |};
     claimService := unknown;
     fulfillmentService := unknown;
     fulfillmentProviderService :=
       {| retrieveDocuments := fun _ _ _ => Return [] |};
     totalsService :=
       {| getLineItemTotals := fun item _ _ => Return (totals_of item);
          getTotal := fun _ => Return 0;
          getRefundTotal := fun _ _ => Return 0 |};
     productVariantService := unknown |}.

Definition options : PluginOptions :=
  {| opt_fromEmail := None;
     opt_transport := None;
     opt_emailTemplatePath := None;
     opt_templateMap :=
       Some (list_to_map
               [ ("order.placed", "orderplaced");
                 ("order.canceled", "ordercanceled");
                 ("order.return_requested", "returnrequested");
                 ("swap.created", "swapcreated");
                 ("swap.received", "swapreceived");
                 ("gift_card.created", "giftcard");
                 ("user.password_reset", "passwordreset") ]) |}.

Definition service : SmtpService := constructor rt container options.

(** The service with the options left out: only [order.placed] has a
    template. *)
Definition default_service : SmtpService :=
  constructor rt container
    {| opt_fromEmail := None; opt_transport := None;
       opt_emailTemplatePath := None; opt_templateMap := None |}.

(** A password-reset payload with a recipient, the message that the first
    send builds from it, and a payload without recipient. *)
Definition reset_payload : value := VObj [ ("email", VStr "admin@example.com") ].

Definition reset_message : SendOptions :=
  {| template := "passwordreset";
     message_to := VStr "admin@example.com";
     message_attachments := None;
     locals_data := reset_payload;
     locals_env := VObj [] |}.

Definition token_payload : value := VObj [ ("token", VStr "t") ].

(** Stored notifications: a password reset, and a return request as the
    first send leaves it, its context at the top of [data]. *)
Definition stored_reset : Notification :=
  {| notification_event_name := "user.password_reset";
     notification_to := VStr "admin@example.com";
     notification_data := reset_payload |}.

Definition stored_return_request : Notification :=
  {| notification_event_name := "order.return_requested";
     notification_to := VStr "buyer@example.com";
     notification_data :=
       VObj [ ("email", VStr "buyer@example.com");
              ("return_request", Enc.return_order return_order) ] |}.

Definition order_payload : value := VObj [ ("id", VStr "order_1") ].

(** A return sent back with a carrier: 999 minor units, taxed at 25% and at
    12.5%. *)
Definition shipping : ShippingMethod :=
  {| sm_price := 999;
     sm_tax_lines := [ {| tax_rate := 25 |}; {| tax_rate := 25 # 2 |} ];
     sm_provider_id := "manual";
     sm_extra := [] |}.

Definition return_with_shipping : ReturnOrder :=
  {| ret_items := [];
     ret_shipping_method := Some shipping;
     ret_shipping_data := VObj [];
     ret_refund_amount := 0;
     ret_updated_at := 0;
     ret_extra := [] |}.

Definition swap_payload : value := VObj [ ("id", VStr "swap_1") ].

(** A returned line that has a variant, and the lines of a cart with their
    totals. *)
Definition returned_variant_line : LineItem :=
  {| item_id := "item_returned";
     item_thumbnail := None;
     item_quantity := 1;
     item_unit_price := 1000;
     item_is_return := true;
     item_variant_id := Some "variant_returned";
     item_extra := [] |}.

Definition decorated (i : LineItem) : Decorated :=
  {| di_item := i;
     di_totals := totals_of (Enc.line_item i);
     di_object := Enc.line_item i |}.

Definition override : ResendConfig := {| config_to := VStr "other@example.com" |}.

Definition resent_message : SendOptions :=
  {| template := "passwordreset";
     message_to := VStr "other@example.com";
     message_attachments := Some [];
     locals_data := reset_payload;
     locals_env := VObj [] |}.

End Sample.

(** ** A second shop, with a warehouse *)

Module Warehouse.

Definition shipment : Fulfillment :=
  {| ful_shipped_at := Some 86400000;
     ful_tracking_links := VArr [];
     ful_tracking_numbers := [ "1Z999"; "1Z998" ];
     ful_extra := [] |}.

Definition variant : Variant :=
  {| variant_product :=
       {| product_thumbnail := Some "//cdn.x/mug.png";
          product_extra := [ ("title", VStr "Mug") ] |};
     variant_extra := [ ("id", VStr "variant_1") ] |}.

(** An order retrieved without its discounts. *)
Definition bare_order : Order :=
  {| order_email := "buyer@example.com";
     order_currency_code := "usd";
     order_tax_rate := 0;
     order_cart_id := None;
     order_items := [];
     order_discounts := None;
     order_gift_cards := Some [];
     order_created_at := 0;
     order_subtotal := 0;
     order_tax_total := 0;
     order_discount_total := 0;
     order_shipping_total := 0;
     order_gift_card_total := 0;
     order_total := 0;
     order_extra := [ ("id", VStr "order_2") ] |}.

Definition label : value :=
  VObj [ ("base_64", VStr "JVBERi0x"); ("type", VStr "application/pdf") ].

Definition container : Container :=
  {| storeService := storeService Sample.container;
     orderService := orderService Sample.container;
     returnService := returnService Sample.container;
     swapService := swapService Sample.container;
     cartService := cartService Sample.container;
     lineItemService := lineItemService Sample.container;
     claimService := claimService Sample.container;
     fulfillmentService := {| retrieve := fun _ _ => Return shipment |};
     fulfillmentProviderService :=
       {| retrieveDocuments := fun _ _ _ => Return [ label ] |};
     totalsService := totalsService Sample.container;
     productVariantService := {| retrieve := fun _ _ => Return variant |} |}.

Definition bare_container : Container :=
  {| storeService := storeService container;
     orderService := {| retrieve := fun _ _ => Return bare_order |};
     returnService := returnService container;
     swapService := swapService container;
     cartService := cartService container;
     lineItemService := lineItemService container;
     claimService := claimService container;
     fulfillmentService := fulfillmentService container;
     fulfillmentProviderService := fulfillmentProviderService container;
     totalsService := totalsService container;
     productVariantService := productVariantService container |}.

Definition templates : gmap string string :=
  list_to_map
    [ ("order.shipment_created", "shipped");
      ("order.canceled", "ordercanceled");
      ("order.return_requested", "returnrequested");
      ("restock-notification.restocked", "restocked");
      ("order.updated", "orderupdated") ].

Definition options : PluginOptions :=
  {| opt_fromEmail := Some "shop@example.com";
     opt_transport := None;
     opt_emailTemplatePath := None;
     opt_templateMap := Some templates |}.

Definition service : SmtpService := constructor Sample.rt container options.
Definition bare_service : SmtpService :=
  constructor Sample.rt bare_container options.

Definition shipment_payload : value :=
  VObj [ ("id", VStr "order_1"); ("fulfillment_id", VStr "ful_1") ].

Definition restock_payload : value :=
  VObj [ ("variant_id", VStr "variant_1");
         ("emails", VArr [ VStr "a@example.com"; VStr "b@example.com" ]) ].

Definition return_payload : value :=
  VObj [ ("id", VStr "order_1"); ("return_id", VStr "return_1") ].

(** What attachment resolution reads of a return sent back with a carrier,
    and of a return without carrier. *)
Definition labelled_return : value :=
  VObj [ ("return_request",
           VObj [ ("shipping_method",
                    VObj [ ("shipping_option",
                             VObj [ ("provider_id", VStr "manual") ]) ]);
                  ("shipping_data", VObj []);
                  ("items", VArr []) ]);
         ("order", VObj [ ("id", VStr "order_1") ]) ].

Definition unlabelled_return : value :=
  VObj [ ("return_request",
           VObj [ ("shipping_method", VNull); ("items", VArr []) ]) ].

Definition invitation : Js.fields :=
  [ ("user_email", VStr "new@example.com"); ("token", VStr "t") ].

Definition newsletter : EmailOptions :=
  {| eo_templateName := "newsletter";
     eo_to := VStr "reader@example.com";
     eo_extra := [ ("issue", VStr "42") ] |}.

End Warehouse.

(* ================================================================== *)
(** * Properties *)

(** C2 (the code at the three inputs of the claim): the formatter gives
    ["0.00"] for a zero amount in USD and ["10.50"] for 1050 minor units in
    USD, but a zero amount in the zero-decimal currency JPY is formatted as
    ["0.00"] too, not as ["0"]: the early return ignores the currency. *)
Theorem humanPrice_zero_ignores_currency :
  humanPrice_ 0 "USD" = "0.00" /\
  humanPrice_ (inject_Z 1050) "USD" = "10.50" /\
  humanPrice_ 0 "JPY" = "0.00" /\
  humanPrice_ 0 "JPY" <> "0" /\
  humanPrice_ (inject_Z 1050) "JPY" = "1050".
Proof. repeat split; try reflexivity. discriminate. Qed.

(** ** Computations *)

Lemma outcome_bind {A B} (m : M A) (f : A -> M B) :
  outcome (m ≫= f) =
  match outcome m with
  | Return a => outcome (f a)
  | Throw e => Throw e
  end.
Proof. unfold mbind, M_bind. destruct (outcome m); reflexivity. Qed.

Lemma trace_bind {A B} (m : M A) (f : A -> M B) :
  trace (m ≫= f) =
  match outcome m with
  | Return a => trace m ++ trace (f a)
  | Throw e => trace m
  end.
Proof. unfold mbind, M_bind. destruct (outcome m); reflexivity. Qed.

Lemma bind_returns {A B} (m : M A) (f : A -> M B) (b : B) :
  outcome (m ≫= f) = Return b ->
  exists a, outcome m = Return a /\ outcome (f a) = Return b.
Proof.
  rewrite outcome_bind. destruct (outcome m) as [a|e]; [eauto | discriminate].
Qed.

Section Observe.

Context {X : Type} (f : Effect -> option X).

Lemma observe_bind {A B} (m : M A) (k : A -> M B) :
  observe f (m ≫= k) =
  match outcome m with
  | Return a => observe f m ++ observe f (k a)
  | Throw e => observe f m
  end.
Proof.
  unfold observe. rewrite trace_bind.
  destruct (outcome m); [apply omap_app | reflexivity].
Qed.

Lemma observe_bind_nil {A B} (m : M A) (k : A -> M B) :
  observe f m = [] -> (forall a, observe f (k a) = []) -> observe f (m ≫= k) = [].
Proof.
  intros Hm Hk. rewrite observe_bind, Hm.
  destruct (outcome m); [apply Hk | reflexivity].
Qed.

Lemma observe_Promise_all_map {A B} (k : A -> M B) (l : list A) :
  (forall x, observe f (k x) = []) -> observe f (Promise_all_map k l) = [].
Proof.
  intros Hk. induction l as [|x l IH]; [reflexivity|].
  cbn [Promise_all_map]. apply observe_bind_nil; [apply Hk|].
  intros y. apply observe_bind_nil; [apply IH | reflexivity].
Qed.

Lemma observe_try_catch {A} (m : M A) (h : Error -> M A) :
  observe f m = [] -> (forall e, observe f (h e) = []) ->
  observe f (try_catch m h) = [].
Proof.
  intros Hm Hh. unfold try_catch. destruct (outcome m) as [a|e]; [exact Hm|].
  unfold observe in *. cbn [trace]. rewrite omap_app, Hm. apply Hh.
Qed.

Lemma observe_get (v : value) (k : string) : observe f (get v k) = [].
Proof. unfold get. destruct (Js.nullish v); reflexivity. Qed.

Lemma observe_member_of_this {S} (name : string) (slot : option S) :
  observe f (member_of_this name slot) = [].
Proof. destruct slot; reflexivity. Qed.

Hypothesis f_Call : forall collaborator method args,
  f (Call collaborator method args) = None.

Lemma observe_call {A} (collaborator method : string) (args : list value)
    (answer : Outcome A) :
  observe f (call collaborator method args answer) = [].
Proof. unfold observe, call. cbn. rewrite f_Call. reflexivity. Qed.

Lemma observe_retrieve_from {A} (name : string) (slot : option (Retriever A))
    (id : value) (config : FindConfig) :
  observe f (retrieve_from name slot id config) = [].
Proof.
  unfold retrieve_from. apply observe_bind_nil; [apply observe_member_of_this|].
  intros; apply observe_call.
Qed.

End Observe.

(** Closes a goal [observe f m = []] for a computation [m] built from calls
    of collaborators, when [f] sees no call. *)
Ltac unobserved :=
  repeat first
    [ reflexivity
    | assumption
    | apply observe_get
    | apply observe_member_of_this
    | apply observe_retrieve_from; intros; reflexivity
    | apply observe_bind_nil; [| intros ]
    | apply observe_Promise_all_map; intros
    | apply observe_try_catch; [| intros ]
    | match goal with
      | |- observe _ (match ?x with _ => _ end) = [] => destruct x
      | |- observe _ (let _ := _ in _) = [] => cbv zeta
      end ].

(** ** The mail client is called by the dispatcher only *)

Section No_mail.

Variable rt : Runtime.
Variable this : SmtpService.

Lemma sends_extractLocale (fromOrder : Order) :
  sends (extractLocale this fromOrder) = [].
Proof. unfold extractLocale. unobserved. Qed.

Lemma sends_lineItemTotals (item owner options : value) :
  sends (lineItemTotals this item owner options) = [].
Proof. unfold lineItemTotals. unobserved. Qed.

Lemma sends_lineItems (ids : list string) (config : FindConfig) :
  sends (lineItems this ids config) = [].
Proof. unfold lineItems. unobserved. Qed.

Lemma sends_fetchAttachments (event : string) (data : value)
    (gen : option AttachmentGenerator) :
  sends (fetchAttachments this event data gen) = [].
Proof. unfold fetchAttachments. unobserved. Qed.

Ltac assembler_no_mail :=
  repeat first
    [ apply sends_extractLocale
    | apply sends_lineItemTotals
    | apply sends_lineItems
    | progress unobserved ].

Lemma sends_orderPlacedData d : sends (orderPlacedData rt this d) = [].
Proof. unfold orderPlacedData, length_of. assembler_no_mail. Qed.

Lemma sends_orderCanceledData d : sends (orderCanceledData rt this d) = [].
Proof. unfold orderCanceledData, length_of. assembler_no_mail. Qed.

Lemma sends_orderShipmentCreatedData d :
  sends (orderShipmentCreatedData rt this d) = [].
Proof. unfold orderShipmentCreatedData, date_string. assembler_no_mail. Qed.

Lemma sends_gcCreatedData d : sends (gcCreatedData this d) = [].
Proof. unfold gcCreatedData, undeclared. assembler_no_mail. Qed.

Lemma sends_returnRequestedData d : sends (returnRequestedData rt this d) = [].
Proof. unfold returnRequestedData. assembler_no_mail. Qed.

Lemma sends_swapReceivedData d : sends (swapReceivedData rt this d) = [].
Proof. unfold swapReceivedData. assembler_no_mail. Qed.

Lemma sends_swapCreatedData d : sends (swapCreatedData rt this d) = [].
Proof. unfold swapCreatedData. assembler_no_mail. Qed.

Lemma sends_swapShipmentCreatedData d :
  sends (swapShipmentCreatedData rt this d) = [].
Proof. unfold swapShipmentCreatedData. assembler_no_mail. Qed.

Lemma sends_claimShipmentCreatedData d :
  sends (claimShipmentCreatedData this d) = [].
Proof. unfold claimShipmentCreatedData. assembler_no_mail. Qed.

Lemma sends_restockNotificationData d :
  sends (restockNotificationData this d) = [].
Proof. unfold restockNotificationData. assembler_no_mail. Qed.

Lemma sends_inviteData d : sends (inviteData d) = [].
Proof. unfold inviteData. assembler_no_mail. Qed.

Lemma sends_fetchData event d gen : sends (fetchData rt this event d gen) = [].
Proof.
  unfold fetchData, itemsReturnedData, userPasswordResetData,
    customerPasswordResetData.
  apply observe_bind_nil; [reflexivity|intros _].
  repeat match goal with
         | |- observe _ (if ?b then _ else _) = [] => destruct b
         end;
  first [ apply sends_returnRequestedData | apply sends_swapShipmentCreatedData
        | apply sends_claimShipmentCreatedData | apply sends_swapReceivedData
        | apply sends_swapCreatedData | apply sends_gcCreatedData
        | apply sends_orderPlacedData | apply sends_orderShipmentCreatedData
        | apply sends_orderCanceledData | apply sends_inviteData
        | apply sends_restockNotificationData | reflexivity ].
Qed.

End No_mail.

(** Assembly does not depend on the mail transport. *)
Lemma fetchData_with_Email_send rt send' this event d gen :
  fetchData (with_Email_send rt send') this event d gen =
  fetchData rt this event d gen.
Proof. reflexivity. Qed.

(** ** The two paths of the dispatcher *)

(** A first send that gets through assembly and attachment resolution with
    a context that can be read hands one message to the mail client and
    returns a record. *)
Lemma sendNotification_returns rt this event eventData gen
    templateName data attachments :
  getTemplateNameForEvent this event = Some templateName ->
  outcome (fetchData rt this event eventData gen) = Return data ->
  outcome (fetchAttachments this event data gen) = Return attachments ->
  Js.nullish data = false ->
  let opts :=
    {| template := templateName;
       message_to := Js.member data "email";
       message_attachments :=
         if attachments is [] then None
         else Some (map message_attachment attachments);
       locals_data := data;
       locals_env := process_env rt |} in
  sends (sendNotification rt this event eventData gen) = [opts] /\
  outcome (sendNotification rt this event eventData gen) =
    Return {| to := Js.member data "email";
              status := settled_status (Email_send rt (email_config this) opts);
              data := Js.or data (VObj []) |}.
Proof.
  intros Htemplate Hdata Hatt Hnull. unfold sendNotification.
  rewrite Htemplate, observe_bind, outcome_bind, sends_fetchData, Hdata.
  rewrite observe_bind, outcome_bind, sends_fetchAttachments, Hatt.
  unfold get. rewrite Hnull.
  destruct attachments; split; cbn;
    try destruct (Email_send rt _ _); reflexivity.
Qed.

(** Conversely, a message handed to the mail client comes from such a run. *)
Lemma sendNotification_sends rt this event eventData gen opts :
  In opts (sends (sendNotification rt this event eventData gen)) ->
  exists templateName data attachments,
    getTemplateNameForEvent this event = Some templateName /\
    outcome (fetchData rt this event eventData gen) = Return data /\
    outcome (fetchAttachments this event data gen) = Return attachments /\
    Js.nullish data = false /\
    sends (sendNotification rt this event eventData gen) = [opts].
Proof.
  intros Hin.
  destruct (getTemplateNameForEvent this event) as [templateName|] eqn:Htemplate;
    [|unfold sendNotification in Hin; rewrite Htemplate in Hin; destruct Hin].
  destruct (outcome (fetchData rt this event eventData gen)) as [data|e] eqn:Hdata;
    [|unfold sendNotification in Hin;
      rewrite Htemplate, observe_bind, sends_fetchData, Hdata in Hin; destruct Hin].
  destruct (outcome (fetchAttachments this event data gen))
    as [attachments|e] eqn:Hatt;
    [|unfold sendNotification in Hin;
      rewrite Htemplate, observe_bind, sends_fetchData, Hdata, observe_bind,
        sends_fetchAttachments, Hatt in Hin; destruct Hin].
  destruct (Js.nullish data) eqn:Hnull;
    [unfold sendNotification, get in Hin;
     rewrite Htemplate, observe_bind, sends_fetchData, Hdata, observe_bind,
       sends_fetchAttachments, Hatt, Hnull in Hin; destruct Hin|].
  destruct (sendNotification_returns rt this event eventData gen
              templateName data attachments Htemplate Hdata Hatt Hnull)
    as [Hsends _].
  rewrite Hsends in Hin. destruct Hin as [<-|[]].
  exists templateName, data, attachments. repeat split; assumption.
Qed.

(** Outside the two events with return labels, attachment resolution reads
    nothing and calls nobody. *)
Lemma fetchAttachments_other_events this event data gen :
  event <> "swap.created" -> event <> "order.return_requested" ->
  fetchAttachments this event data gen =
    mkM [Stage "fetchAttachments" event] (Return []).
Proof.
  intros H1 H2. unfold fetchAttachments.
  apply String.eqb_neq in H1, H2. rewrite H1, H2. reflexivity.
Qed.

Lemma stages_fetchAttachments this event data gen :
  stages (fetchAttachments this event data gen) = ["fetchAttachments"].
Proof.
  unfold fetchAttachments. rewrite observe_bind. cbn [outcome emit].
  change (stages (emit (Stage "fetchAttachments" event))) with ["fetchAttachments"].
  match goal with |- _ ++ ?r = _ => assert (r = []) as -> end; [|reflexivity].
  unobserved.
Qed.

(** A resend of a stored notification whose data can be read and whose
    attachments resolve hands one message to the mail client and returns a
    record; it does not enter assembly. *)
Lemma resendNotification_returns rt this notification config gen
    templateName attachments :
  getTemplateNameForEvent this (notification_event_name notification)
    = Some templateName ->
  Js.nullish (notification_data notification) = false ->
  outcome (fetchAttachments this (notification_event_name notification)
             (Js.member (notification_data notification) "dynamic_template_data")
             gen) = Return attachments ->
  let opts :=
    {| template := templateName;
       message_to := Js.or (config_to config) (notification_to notification);
       message_attachments := Some (map message_attachment attachments);
       locals_data := notification_data notification;
       locals_env := process_env rt |} in
  sends (resendNotification rt this notification config gen) = [opts] /\
  stages (resendNotification rt this notification config gen)
    = ["fetchAttachments"] /\
  outcome (resendNotification rt this notification config gen) =
    Return {| to := Js.or (config_to config) (notification_to notification);
              status := settled_status (Email_send rt (email_config this) opts);
              data := Js.or (notification_data notification) (VObj []) |}.
Proof.
  intros Htemplate Hnull Hatt. unfold resendNotification.
  rewrite Htemplate. unfold get. rewrite Hnull.
  rewrite !observe_bind, !outcome_bind. cbn [outcome ret mret M_ret].
  rewrite !observe_bind, !outcome_bind, Hatt.
  rewrite sends_fetchAttachments, stages_fetchAttachments.
  repeat split; reflexivity.
Qed.

Lemma resendNotification_sends rt this notification config gen opts :
  In opts (sends (resendNotification rt this notification config gen)) ->
  exists templateName attachments,
    getTemplateNameForEvent this (notification_event_name notification)
      = Some templateName /\
    Js.nullish (notification_data notification) = false /\
    outcome (fetchAttachments this (notification_event_name notification)
               (Js.member (notification_data notification)
                  "dynamic_template_data") gen) = Return attachments /\
    sends (resendNotification rt this notification config gen) = [opts].
Proof.
  intros Hin.
  destruct (getTemplateNameForEvent this (notification_event_name notification))
    as [templateName|] eqn:Htemplate;
    [|unfold resendNotification in Hin; rewrite Htemplate in Hin; destruct Hin].
  destruct (Js.nullish (notification_data notification)) eqn:Hnull;
    [unfold resendNotification, get in Hin;
     rewrite Htemplate, Hnull in Hin; destruct Hin|].
  destruct (outcome (fetchAttachments this (notification_event_name notification)
                       (Js.member (notification_data notification)
                          "dynamic_template_data") gen))
    as [attachments|e] eqn:Hatt.
  - destruct (resendNotification_returns rt this notification config gen
                templateName attachments Htemplate Hnull Hatt) as [Hsends _].
    rewrite Hsends in Hin. destruct Hin as [<-|[]].
    exists templateName, attachments. repeat split; assumption.
  - unfold resendNotification, get in Hin. rewrite Htemplate, Hnull in Hin.
    rewrite observe_bind in Hin. cbn [outcome ret mret M_ret] in Hin.
    rewrite observe_bind, Hatt, sends_fetchAttachments in Hin. destruct Hin.
Qed.

(** ** The event without a template *)

(** C1 (what the code does): when [getTemplateNameForEvent] yields no
    template, the first-send path returns at once, with no stage entered,
    no collaborator called and no message sent, a record whose recipient is
    the empty string and whose data is the empty object; the status of that
    record is [noDataFound], not [noTemplateFound]. *)
Theorem sendNotification_without_template rt this event eventData gen :
  getTemplateNameForEvent this event = None ->
  exists r,
    sendNotification rt this event eventData gen = mkM [] (Return r) /\
    to r = VStr "" /\ data r = VObj [] /\
    status r = noDataFound /\ status r <> noTemplateFound.
Proof.
  intros Htemplate. unfold sendNotification. rewrite Htemplate.
  eexists. split; [reflexivity|]. cbn. repeat split. discriminate.
Qed.

Lemma sendNotification_without_template_witness :
  getTemplateNameForEvent Sample.default_service "user.password_reset" = None /\
  exists r,
    sendNotification Sample.rt Sample.default_service "user.password_reset"
      (VObj [ ("email", VStr "admin@example.com") ]) None = mkM [] (Return r) /\
    to r = VStr "" /\ data r = VObj [] /\
    status r = noDataFound /\ status r <> noTemplateFound.
Proof.
  split; [reflexivity|].
  apply (sendNotification_without_template Sample.rt Sample.default_service
           "user.password_reset" (VObj [ ("email", VStr "admin@example.com") ]) None).
  reflexivity.
Defined.

(** ** The recipient of a first send *)

Lemma fetchData_password_reset rt this event eventData gen :
  event = "user.password_reset" \/ event = "customer.password_reset" ->
  fetchData rt this event eventData gen =
    mkM [Stage "fetchData" event] (Return eventData).
Proof. intros [->| ->]; reflexivity. Qed.

(** C4 (as amended): a message that the first-send path hands to the mail
    client has for recipient the [email] property of the assembled data,
    whatever it is, and the assembled data for context; for the pass-through
    assemblers of the password-reset events the assembled data is the
    payload itself, so the recipient is the payload's [email], present or
    not. *)
Theorem send_recipient_is_assembled_email rt this event eventData gen opts :
  In opts (sends (sendNotification rt this event eventData gen)) ->
  exists data,
    outcome (fetchData rt this event eventData gen) = Return data /\
    locals_data opts = data /\
    message_to opts = Js.member data "email" /\
    (event = "user.password_reset" \/ event = "customer.password_reset" ->
     data = eventData).
Proof.
  intros Hin.
  destruct (sendNotification_sends _ _ _ _ _ _ Hin)
    as (templateName & data & attachments & Ht & Hdata & Hatt & Hnull & Hsends).
  destruct (sendNotification_returns _ _ _ _ _ _ _ _ Ht Hdata Hatt Hnull)
    as [Hsends' _].
  rewrite Hsends in Hsends'. injection Hsends' as ->.
  exists data. repeat split; [assumption|].
  intros Hevent. rewrite (fetchData_password_reset _ _ _ _ _ Hevent) in Hdata.
  injection Hdata as ->. reflexivity.
Qed.

Lemma send_recipient_is_assembled_email_witness :
  In Sample.reset_message
     (sends (sendNotification Sample.rt Sample.service "user.password_reset"
               Sample.reset_payload None)) /\
  exists data,
    outcome (fetchData Sample.rt Sample.service "user.password_reset"
               Sample.reset_payload None) = Return data /\
    locals_data Sample.reset_message = data /\
    message_to Sample.reset_message = Js.member data "email" /\
    ("user.password_reset" = "user.password_reset"
     \/ "user.password_reset" = "customer.password_reset" ->
     data = Sample.reset_payload).
Proof.
  assert (Hin : In Sample.reset_message
                  (sends (sendNotification Sample.rt Sample.service
                            "user.password_reset" Sample.reset_payload None)))
    by (vm_compute; left; reflexivity).
  split; [exact Hin|].
  exact (send_recipient_is_assembled_email Sample.rt Sample.service
           "user.password_reset" Sample.reset_payload None
           Sample.reset_message Hin).
Defined.

(** C4 (counterexample): for [user.password_reset] with a template and a
    payload without [email], the mail client is called with an undefined
    recipient. *)
Lemma send_with_missing_email :
  ~ (forall opts,
       In opts (sends (sendNotification Sample.rt Sample.service
                         "user.password_reset" Sample.token_payload None)) ->
       Js.truthy (message_to opts) = true).
Proof.
  intros H.
  specialize (H {| template := "passwordreset";
                   message_to := VUndefined;
                   message_attachments := None;
                   locals_data := Sample.token_payload;
                   locals_env := VObj [] |}).
  discriminate H. vm_compute. left; reflexivity.
Qed.

(** ** A rejected send *)

(** C5: whenever a dispatch, first send or resend, hands a message to the
    mail client, it returns a record and does not throw, whatever the mail
    client answers: the status is [failed] if the send rejects and [sent] if
    it resolves, and the recipient and the data of the record are those of
    the message, the same under any other mail transport. *)
Theorem send_rejection_is_swallowed rt this opts :
  (forall event eventData gen,
     In opts (sends (sendNotification rt this event eventData gen)) ->
     forall send',
     exists r,
       outcome (sendNotification (with_Email_send rt send') this event eventData gen)
         = Return r /\
       (send' (email_config this) opts = Rejected -> status r = failed) /\
       (send' (email_config this) opts = Resolved -> status r = sent) /\
       to r = message_to opts /\
       data r = Js.or (locals_data opts) (VObj [])) /\
  (forall notification config gen,
     In opts (sends (resendNotification rt this notification config gen)) ->
     forall send',
     exists r,
       outcome (resendNotification (with_Email_send rt send') this notification
                  config gen) = Return r /\
       (send' (email_config this) opts = Rejected -> status r = failed) /\
       (send' (email_config this) opts = Resolved -> status r = sent) /\
       to r = message_to opts /\
       data r = Js.or (locals_data opts) (VObj [])).
Proof.
  split.
  - intros event eventData gen Hin send'.
    destruct (sendNotification_sends _ _ _ _ _ _ Hin)
      as (templateName & data & attachments & Ht & Hdata & Hatt & Hnull & Hsends).
    destruct (sendNotification_returns _ _ _ _ _ _ _ _ Ht Hdata Hatt Hnull)
      as [Hsends' _].
    rewrite Hsends in Hsends'. injection Hsends' as Hopts.
    rewrite <- (fetchData_with_Email_send rt send') in Hdata.
    destruct (sendNotification_returns (with_Email_send rt send') _ _ _ _ _ _ _
                Ht Hdata Hatt Hnull) as [_ Hout].
    eexists. split; [exact Hout|]. cbn.
    subst opts. repeat split; try intros ->; reflexivity.
  - intros notification config gen Hin send'.
    destruct (resendNotification_sends _ _ _ _ _ _ Hin)
      as (templateName & attachments & Ht & Hnull & Hatt & Hsends).
    destruct (resendNotification_returns rt _ _ config _ _ _ Ht Hnull Hatt)
      as [Hsends' _].
    rewrite Hsends in Hsends'. injection Hsends' as Hopts.
    destruct (resendNotification_returns (with_Email_send rt send') _ _ config
                _ _ _ Ht Hnull Hatt) as (_ & _ & Hout).
    eexists. split; [exact Hout|]. cbn.
    subst opts. repeat split; try intros ->; reflexivity.
Qed.

Lemma send_rejection_is_swallowed_witness :
  In Sample.reset_message
     (sends (sendNotification Sample.rt Sample.service "user.password_reset"
               Sample.reset_payload None)) /\
  In Sample.resent_message
     (sends (resendNotification Sample.rt Sample.service Sample.stored_reset
               Sample.override None)) /\
  (exists r,
     outcome (sendNotification
                (with_Email_send Sample.rt (fun _ _ => Rejected)) Sample.service
                "user.password_reset" Sample.reset_payload None) = Return r /\
     status r = failed /\
     to r = VStr "admin@example.com" /\ data r = Sample.reset_payload) /\
  (exists r,
     outcome (resendNotification
                (with_Email_send Sample.rt (fun _ _ => Rejected)) Sample.service
                Sample.stored_reset Sample.override None) = Return r /\
     status r = failed /\
     to r = VStr "other@example.com" /\ data r = Sample.reset_payload).
Proof.
  assert (H1 : In Sample.reset_message
                 (sends (sendNotification Sample.rt Sample.service
                           "user.password_reset" Sample.reset_payload None)))
    by (vm_compute; left; reflexivity).
  assert (H2 : In Sample.resent_message
                 (sends (resendNotification Sample.rt Sample.service
                           Sample.stored_reset Sample.override None)))
    by (vm_compute; left; reflexivity).
  split; [exact H1|]. split; [exact H2|]. split.
  - destruct (proj1 (send_rejection_is_swallowed Sample.rt Sample.service
                       Sample.reset_message)
                "user.password_reset" Sample.reset_payload None H1
                (fun _ _ => Rejected))
      as (r & Hout & Hfailed & _ & Hto & Hdata).
    exists r. repeat split; [exact Hout | exact (Hfailed eq_refl) | exact Hto | exact Hdata].
  - destruct (proj2 (send_rejection_is_swallowed Sample.rt Sample.service
                       Sample.resent_message)
                Sample.stored_reset Sample.override None H2
                (fun _ _ => Rejected))
      as (r & Hout & Hfailed & _ & Hto & Hdata).
    exists r. repeat split; [exact Hout | exact (Hfailed eq_refl) | exact Hto | exact Hdata].
Defined.

(** ** The resend path *)




(** ** The gift-card events *)

Lemma fetchData_gift_card rt this event eventData gen :
  event = "gift_card.created" \/ event = "order.gift_card_created" ->
  fetchData rt this event eventData gen =
    (emit (Stage "fetchData" event);; gcCreatedData this eventData).
Proof. intros [->| ->]; reflexivity. Qed.

(** Whatever the gift-card service is, [gcCreatedData] builds no context:
    it returns [undefined] for a gift card without order and throws on the
    undeclared [order] otherwise. *)
Lemma gcCreatedData_returns this eventData v :
  outcome (gcCreatedData this eventData) = Return v -> v = VUndefined.
Proof.
  unfold gcCreatedData. intros H.
  apply bind_returns in H as (id & _ & H).
  apply bind_returns in H as (giftCard & _ & H).
  destruct (gce_order giftCard).
  - apply bind_returns in H as (order & Horder & _). discriminate Horder.
  - injection H as <-. reflexivity.
Qed.

(** Without a gift-card service the first step after reading [id] throws. *)
Lemma gcCreatedData_without_service this eventData :
  giftCardService_ this = None ->
  exists what, gcCreatedData this eventData = mkM [] (Throw (TypeError what)).
Proof.
  intros Hnone. unfold gcCreatedData, retrieve_from, get. rewrite Hnone.
  destruct (Js.nullish eventData); eexists; reflexivity.
Qed.

(** C10: for [gift_card.created] and [order.gift_card_created] with a
    configured template, [sendNotification] throws and returns no record,
    and no message reaches the mail client; this holds for any instance,
    since [gcCreatedData] cannot build a context, and on an instance made by
    the constructor, which leaves [giftCardService_] unassigned, the error
    is the [TypeError] of the missing service, thrown before any
    collaborator is called. *)
Theorem gift_card_events_throw rt this event eventData gen templateName :
  event = "gift_card.created" \/ event = "order.gift_card_created" ->
  getTemplateNameForEvent this event = Some templateName ->
  (exists e, outcome (sendNotification rt this event eventData gen) = Throw e) /\
  sends (sendNotification rt this event eventData gen) = [] /\
  (forall rt' container options,
     this = constructor rt' container options ->
     exists what,
       sendNotification rt this event eventData gen =
         mkM [Stage "fetchData" event] (Throw (TypeError what))).
Proof.
  intros Hevent Ht.
  assert (Hout : exists e,
             outcome (sendNotification rt this event eventData gen) = Throw e).
  { unfold sendNotification. rewrite Ht, outcome_bind.
    rewrite (fetchData_gift_card _ _ _ _ _ Hevent), outcome_bind. cbn [outcome emit].
    destruct (outcome (gcCreatedData this eventData)) as [v|e] eqn:Hgc; [|eauto].
    apply gcCreatedData_returns in Hgc as ->.
    rewrite fetchAttachments_other_events
      by (destruct Hevent as [->| ->]; discriminate).
    eexists. reflexivity. }
  split; [exact Hout|]. split.
  - destruct (sends (sendNotification rt this event eventData gen))
      as [|opts rest] eqn:Hsends; [reflexivity|].
    assert (Hin : In opts (sends (sendNotification rt this event eventData gen)))
      by (rewrite Hsends; left; reflexivity).
    apply sendNotification_sends in Hin
      as (t & data & atts & _ & Hdata & _ & Hnull & _).
    rewrite (fetchData_gift_card _ _ _ _ _ Hevent), outcome_bind in Hdata.
    cbn [outcome emit] in Hdata.
    apply gcCreatedData_returns in Hdata as ->. discriminate Hnull.
  - intros rt' container options ->.
    destruct (gcCreatedData_without_service
                (constructor rt' container options) eventData eq_refl)
      as [what Hgc].
    exists what. unfold sendNotification. rewrite Ht.
    rewrite (fetchData_gift_card _ _ _ _ _ Hevent), Hgc. reflexivity.
Qed.

Lemma gift_card_events_throw_witness :
  getTemplateNameForEvent Sample.service "gift_card.created" = Some "giftcard" /\
  (exists e,
     outcome (sendNotification Sample.rt Sample.service "gift_card.created"
                (VObj [ ("id", VStr "gift_1") ]) None) = Throw e) /\
  sends (sendNotification Sample.rt Sample.service "gift_card.created"
           (VObj [ ("id", VStr "gift_1") ]) None) = [] /\
  (forall rt' container options,
     Sample.service = constructor rt' container options ->
     exists what,
       sendNotification Sample.rt Sample.service "gift_card.created"
         (VObj [ ("id", VStr "gift_1") ]) None =
         mkM [Stage "fetchData" "gift_card.created"] (Throw (TypeError what))).
Proof.
  split; [reflexivity|].
  apply (gift_card_events_throw Sample.rt Sample.service "gift_card.created"
           (VObj [ ("id", VStr "gift_1") ]) None "giftcard").
  - left; reflexivity.
  - reflexivity.
Defined.

(** ** The shipping total of a return *)

Lemma Qfloor_add_Z (n : Z) (x : Q) : Qfloor (inject_Z n + x) = n + Qfloor x.
Proof.
  destruct x as [a d]. unfold Qfloor, Qplus, inject_Z. cbn [Qnum Qden].
  rewrite Pos.mul_1_l, Z.mul_1_r. apply Z.div_add_l. discriminate.
Qed.

(** Rounding commutes with adding an integer. *)
Lemma round_add_Z (n : Z) (x : Q) : Num.round (inject_Z n + x) = n + Num.round x.
Proof.
  unfold Num.round. rewrite <- Qfloor_add_Z.
  apply Qfloor_comp. symmetry. apply Qplus_assoc.
Qed.

Lemma fold_rounded (base : Z) (lines : list TaxLine) (acc : Z) :
  fold_left
    (fun acc next =>
       Num.round (inject_Z acc + inject_Z base * (tax_rate next / 100)))
    lines acc
  = acc + foldr Z.add 0 (map (rounded_tax base) lines).
Proof.
  revert acc. induction lines as [|t lines IH]; intros acc;
    cbn [fold_left map foldr].
  - lia.
  - rewrite IH, round_add_Z. unfold rounded_tax. lia.
Qed.



(** ** Discounts and gift cards of an order *)

Lemma lookup_set_field_eq k v o : Js.lookup_field k (Js.set_field k v o) = Some v.
Proof.
  induction o as [|[k' v'] o IH]; cbn.
  - rewrite String.eqb_refl. reflexivity.
  - destruct (String.eqb k k') eqn:E; cbn; rewrite ?String.eqb_refl, ?E; auto.
Qed.

Lemma lookup_set_field_ne k k' v o :
  k <> k' -> Js.lookup_field k (Js.set_field k' v o) = Js.lookup_field k o.
Proof.
  intros Hne. induction o as [|[k'' v''] o IH]; cbn.
  - apply String.eqb_neq in Hne. rewrite Hne. reflexivity.
  - destruct (String.eqb k' k'') eqn:E; cbn.
    + apply String.eqb_eq in E as <-. apply String.eqb_neq in Hne.
      rewrite Hne. reflexivity.
    + rewrite IH. reflexivity.
Qed.

Lemma retrieve_from_returns {A} name (slot : option (Retriever A)) id config a :
  outcome (retrieve_from name slot id config) = Return a ->
  exists svc, slot = Some svc /\ retrieve svc id config = Return a.
Proof.
  unfold retrieve_from. destruct slot as [svc|]; [|discriminate].
  intros H. exists svc. split; [reflexivity|exact H].
Qed.

(** Reads a property of an object literal written after a spread. *)
Ltac member_of_assign :=
  unfold Js.member, Js.assign; cbn [fold_left fst snd];
  repeat (rewrite lookup_set_field_ne by discriminate);
  rewrite lookup_set_field_eq; reflexivity.

(** The [discounts] of the context of [order.placed]: one line per discount
    of the order that the order service returned. *)
Lemma orderPlacedData_discounts rt this eventData ctx :
  outcome (orderPlacedData rt this eventData) = Return ctx ->
  exists svc id config order discounts gift_cards,
    orderService_ this = Some svc /\
    retrieve svc id config = Return order /\
    order_discounts order = Some discounts /\
    order_gift_cards order = Some gift_cards /\
    Js.member ctx "discounts" =
      VArr (map (discount_line (Str.toUpperCase (order_currency_code order)))
              discounts).
Proof.
  unfold orderPlacedData. intros H.
  apply bind_returns in H as (id & _ & H).
  apply bind_returns in H as (order & Horder & H).
  apply retrieve_from_returns in Horder as (svc & Hsvc & Horder).
  cbv zeta in H.
  apply bind_returns in H as (items & _ & H).
  apply bind_returns in H as (locale & _ & H).
  apply bind_returns in H as (has_discounts & Hd & H).
  apply bind_returns in H as (has_gift_cards & Hg & H).
  destruct (order_discounts order) as [discounts|] eqn:Hdiscounts;
    [|discriminate Hd].
  destruct (order_gift_cards order) as [gift_cards|] eqn:Hgift;
    [|discriminate Hg].
  injection H as <-.
  exists svc, id. eexists. exists order, discounts, gift_cards.
  split; [exact Hsvc|]. split; [exact Horder|].
  split; [exact Hdiscounts|]. split; [exact Hgift|].
  member_of_assign.
Qed.

(** The same for [order.canceled]. *)
Lemma orderCanceledData_discounts rt this eventData ctx :
  outcome (orderCanceledData rt this eventData) = Return ctx ->
  exists svc id config order discounts gift_cards,
    orderService_ this = Some svc /\
    retrieve svc id config = Return order /\
    order_discounts order = Some discounts /\
    order_gift_cards order = Some gift_cards /\
    Js.member ctx "discounts" =
      VArr (map (discount_line (Str.toUpperCase (order_currency_code order)))
              discounts).
Proof.
  unfold orderCanceledData. intros H.
  apply bind_returns in H as (id & _ & H).
  apply bind_returns in H as (order & Horder & H).
  apply retrieve_from_returns in Horder as (svc & Hsvc & Horder).
  cbv zeta in H.
  apply bind_returns in H as (locale & _ & H).
  apply bind_returns in H as (has_discounts & Hd & H).
  apply bind_returns in H as (has_gift_cards & Hg & H).
  destruct (order_discounts order) as [discounts|] eqn:Hdiscounts;
    [|discriminate Hd].
  destruct (order_gift_cards order) as [gift_cards|] eqn:Hgift;
    [|discriminate Hg].
  injection H as <-.
  exists svc, id. eexists. exists order, discounts, gift_cards.
  split; [exact Hsvc|]. split; [exact Horder|].
  split; [exact Hdiscounts|]. split; [exact Hgift|].
  member_of_assign.
Qed.

(** C3 (as amended): in the context of [order.placed] and of
    [order.canceled], [discounts] holds one line per discount of the order;
    the descriptor of a line is the rule's value as it stands, followed by
    ["%"] for a percentage rule and by a space and the upper-cased currency
    code otherwise.  So a percentage discount of value 10 gives ["10%"] and
    a fixed discount of value 500 in USD gives ["500 USD"]: the value does
    not go through the price formatter. *)
Theorem discount_descriptors rt this eventData ctx :
  outcome (orderPlacedData rt this eventData) = Return ctx \/
  outcome (orderCanceledData rt this eventData) = Return ctx ->
  (exists svc id config order discounts,
     orderService_ this = Some svc /\
     retrieve svc id config = Return order /\
     order_discounts order = Some discounts /\
     Js.member ctx "discounts" =
       VArr (map (discount_line (Str.toUpperCase (order_currency_code order)))
               discounts)) /\
  (forall currencyCode discount,
     Js.member (discount_line currencyCode discount) "descriptor" =
       VStr (Num.toString (rule_value (discount_rule discount))
             +:+ (if String.eqb (rule_type (discount_rule discount)) "percentage"
                  then "%" else " " +:+ currencyCode))) /\
  (forall code,
     Js.member
       (discount_line (Str.toUpperCase "usd")
          {| discount_code := code;
             discount_rule := {| rule_value := 10; rule_type := "percentage" |} |})
       "descriptor" = VStr "10%") /\
  (forall code,
     Js.member
       (discount_line (Str.toUpperCase "usd")
          {| discount_code := code;
             discount_rule := {| rule_value := 500; rule_type := "fixed" |} |})
       "descriptor" = VStr "500 USD").
Proof.
  intros H. split; [|repeat split].
  destruct H as [H|H];
    [apply orderPlacedData_discounts in H | apply orderCanceledData_discounts in H];
    destruct H as (svc & id & config & order & discounts & gift_cards
                   & Hsvc & Horder & Hd & _ & Hctx);
    exists svc, id, config, order, discounts; auto.
Qed.

Lemma discount_descriptors_witness :
  exists ctx,
    outcome (orderPlacedData Sample.rt Sample.service Sample.order_payload)
      = Return ctx /\
    Js.member ctx "discounts" =
      VArr [ VObj [ ("is_giftcard", VBool false); ("code", VStr "TEN");
                    ("descriptor", VStr "10%") ];
             VObj [ ("is_giftcard", VBool false); ("code", VStr "FIVE");
                    ("descriptor", VStr "500 USD") ] ].
Proof.
  destruct (outcome (orderPlacedData Sample.rt Sample.service Sample.order_payload))
    as [ctx|e] eqn:Hctx; [|vm_compute in Hctx; discriminate Hctx].
  exists ctx. split; [reflexivity|].
  destruct (discount_descriptors Sample.rt Sample.service Sample.order_payload ctx
              (or_introl Hctx))
    as [(svc & id & config & order & discounts & Hsvc & Horder & Hd & Hmember) _].
  injection Hsvc as <-. injection Horder as <-. injection Hd as <-.
  exact Hmember.
Defined.

(** C3 (counterexample): on the order of the sample shop, whose second
    discount is a fixed rule of value 500 in USD, the descriptor assembled
    for [order.placed] is ["500 USD"], not ["5.00 USD"], the formatted
    amount. *)
Lemma fixed_discount_is_not_formatted :
  exists ctx line,
    outcome (orderPlacedData Sample.rt Sample.service Sample.order_payload)
      = Return ctx /\
    Js.member ctx "discounts"
      = VArr [ discount_line "USD" Sample.ten_percent; line ] /\
    line = discount_line "USD" Sample.five_off /\
    Js.member line "descriptor" = VStr "500 USD" /\
    Js.member line "descriptor"
      <> VStr (humanPrice_ (inject_Z 500) "USD" +:+ " " +:+ "USD").
Proof.
  eexists. eexists. split; [vm_compute; reflexivity|].
  split; [reflexivity|]. repeat split. vm_compute. discriminate.
Qed.

(** C9 (what the code does): each gift card of the order is turned into a
    line flagged [is_giftcard = true] with the descriptor
    ["{value} {CURRENCY}"], but the array that joins these lines to the
    discount lines is dropped: in the context of [order.placed] and of
    [order.canceled], [discounts] holds the discount lines only, and none of
    its lines is flagged as a gift card, whatever gift cards the order has. *)
Theorem gift_cards_missing_from_discounts rt this eventData ctx :
  outcome (orderPlacedData rt this eventData) = Return ctx \/
  outcome (orderCanceledData rt this eventData) = Return ctx ->
  (exists svc id config order discounts gift_cards lines,
     orderService_ this = Some svc /\
     retrieve svc id config = Return order /\
     order_discounts order = Some discounts /\
     order_gift_cards order = Some gift_cards /\
     Js.member ctx "discounts" = VArr lines /\
     length lines = length discounts /\
     Forall (fun line => Js.member line "is_giftcard" = VBool false) lines) /\
  (forall currencyCode gc,
     Js.member (gift_card_line currencyCode gc) "is_giftcard" = VBool true /\
     Js.member (gift_card_line currencyCode gc) "descriptor" =
       VStr (Num.toString (gc_value gc) +:+ " " +:+ currencyCode)).
Proof.
  intros H. split; [|repeat split].
  destruct H as [H|H];
    [apply orderPlacedData_discounts in H | apply orderCanceledData_discounts in H];
    destruct H as (svc & id & config & order & discounts & gift_cards
                   & Hsvc & Horder & Hd & Hg & Hctx);
    exists svc, id, config, order, discounts, gift_cards; eexists;
    (repeat split; [exact Hsvc | exact Horder | exact Hd | exact Hg | exact Hctx
                   | apply length_map
                   | apply Forall_map, Forall_forall; reflexivity ]).
Qed.

Lemma gift_cards_missing_from_discounts_witness :
  order_gift_cards Sample.order = Some [ Sample.gift ] /\
  exists ctx lines,
    outcome (orderCanceledData Sample.rt Sample.service Sample.order_payload)
      = Return ctx /\
    Js.member ctx "discounts" = VArr lines /\
    length lines = 2%nat /\
    Forall (fun line => Js.member line "is_giftcard" = VBool false) lines.
Proof.
  split; [reflexivity|].
  destruct (outcome (orderCanceledData Sample.rt Sample.service Sample.order_payload))
    as [ctx|e] eqn:Hctx; [|vm_compute in Hctx; discriminate Hctx].
  destruct (gift_cards_missing_from_discounts Sample.rt Sample.service
              Sample.order_payload ctx (or_intror Hctx))
    as [(svc & id & config & order & discounts & gift_cards & lines
         & Hsvc & Horder & Hd & Hg & Hmember & Hlen & Hall) _].
  injection Hsvc as <-. injection Horder as <-. injection Hd as <-.
  exists ctx, lines. repeat split; assumption.
Defined.

(** ** The totals of a swap *)

Lemma Promise_all_map_returns {A B} (f : A -> M B) (l : list A) (ys : list B) :
  outcome (Promise_all_map f l) = Return ys ->
  Forall2 (fun x y => outcome (f x) = Return y) l ys.
Proof.
  revert ys. induction l as [|x l IH]; intros ys H.
  - injection H as <-. constructor.
  - cbn [Promise_all_map] in H.
    apply bind_returns in H as (y & Hy & H).
    apply bind_returns in H as (ys' & Hys & H).
    injection H as <-. constructor; [exact Hy | apply IH, Hys].
Qed.

Lemma lineItemTotals_returns this item owner options totals :
  outcome (lineItemTotals this item owner options) = Return totals ->
  exists ts, totalsService_ this = Some ts /\
             getLineItemTotals ts item owner options = Return totals.
Proof.
  unfold lineItemTotals. destruct (totalsService_ this) as [ts|]; [|discriminate].
  intros H. exists ts. split; [reflexivity|exact H].
Qed.

(** Reads a property of an object literal. *)
Ltac member_of_literal :=
  unfold Js.member, Js.literal, Js.assign; cbn [fold_left fst snd];
  repeat (rewrite lookup_set_field_ne by discriminate);
  rewrite lookup_set_field_eq; reflexivity.

(** In the context of [swap.created], [return_total] and [additional_total]
    are the two folds over the decorated lines of the cart, formatted. *)
Lemma swapCreatedData_totals rt this eventData ctx :
  outcome (swapCreatedData rt this eventData) = Return ctx ->
  exists cart order decoratedItems,
    map di_item decoratedItems = cart_items cart /\
    Forall (fun next =>
              exists ts, totalsService_ this = Some ts /\
                getLineItemTotals ts (Enc.line_item (di_item next)) (Enc.cart cart)
                  (VObj [ ("include_tax", VBool true) ]) = Return (di_totals next))
           decoratedItems /\
    let currencyCode := Str.toUpperCase (order_currency_code order) in
    Js.member ctx "return_total" =
      VStr (humanPrice_ (inject_Z (swapCreated_returnTotal decoratedItems))
              currencyCode
            +:+ " " +:+ currencyCode) /\
    Js.member ctx "additional_total" =
      VStr (humanPrice_ (inject_Z (swapCreated_additionalTotal decoratedItems))
              currencyCode
            +:+ " " +:+ currencyCode).
Proof.
  unfold swapCreatedData. intros H.
  apply bind_returns in H as (id & _ & H).
  apply bind_returns in H as (store_svc & _ & H).
  apply bind_returns in H as (store & _ & H).
  apply bind_returns in H as (swap & _ & H).
  cbv zeta in H.
  apply bind_returns in H as (items & _ & H).
  apply bind_returns in H as (order & _ & H).
  apply bind_returns in H as (cart & _ & H).
  apply bind_returns in H as (decoratedItems & Hdec & H).
  apply bind_returns in H as (locale & _ & H).
  injection H as <-.
  apply Promise_all_map_returns in Hdec.
  exists cart, order, decoratedItems. split; [|split; [|split]].
  - induction Hdec as [|i d l ds Hd _ IH]; [reflexivity|].
    cbn [map]. rewrite IH. f_equal.
    apply bind_returns in Hd as (totals & _ & Hd). injection Hd as <-. reflexivity.
  - induction Hdec as [|i d l ds Hd _ IH]; constructor; [|exact IH].
    apply bind_returns in Hd as (totals & Ht & Hd). injection Hd as <-.
    apply lineItemTotals_returns in Ht. exact Ht.
  - member_of_literal.
  - member_of_literal.
Qed.

(** The same for [swap.received]. *)
Lemma swapReceivedData_totals rt this eventData ctx :
  outcome (swapReceivedData rt this eventData) = Return ctx ->
  exists cart order decoratedItems,
    map di_item decoratedItems = cart_items cart /\
    Forall (fun next =>
              exists ts, totalsService_ this = Some ts /\
                getLineItemTotals ts (Enc.line_item (di_item next)) (Enc.cart cart)
                  (VObj [ ("include_tax", VBool true) ]) = Return (di_totals next))
           decoratedItems /\
    let currencyCode := Str.toUpperCase (order_currency_code order) in
    Js.member ctx "return_total" =
      VStr (humanPrice_ (inject_Z (swapReceived_returnTotal decoratedItems))
              currencyCode
            +:+ " " +:+ currencyCode) /\
    Js.member ctx "additional_total" =
      VStr (humanPrice_ (inject_Z (swapReceived_additionalTotal decoratedItems))
              currencyCode
            +:+ " " +:+ currencyCode).
Proof.
  unfold swapReceivedData. intros H.
  apply bind_returns in H as (id & _ & H).
  apply bind_returns in H as (store_svc & _ & H).
  apply bind_returns in H as (store & _ & H).
  apply bind_returns in H as (swap & _ & H).
  cbv zeta in H.
  apply bind_returns in H as (items & _ & H).
  apply bind_returns in H as (order & _ & H).
  apply bind_returns in H as (cart & _ & H).
  apply bind_returns in H as (decoratedItems & Hdec & H).
  apply bind_returns in H as (locale & _ & H).
  injection H as <-.
  apply Promise_all_map_returns in Hdec.
  exists cart, order, decoratedItems. split; [|split; [|split]].
  - induction Hdec as [|i d l ds Hd _ IH]; [reflexivity|].
    cbn [map]. rewrite IH. f_equal.
    apply bind_returns in Hd as (totals & _ & Hd). injection Hd as <-. reflexivity.
  - induction Hdec as [|i d l ds Hd _ IH]; constructor; [|exact IH].
    apply bind_returns in Hd as (totals & Ht & Hd). injection Hd as <-.
    apply lineItemTotals_returns in Ht. exact Ht.
  - member_of_literal.
  - member_of_literal.
Qed.

(** A fold whose steps commute does not depend on the order of the list. *)
Lemma fold_left_Permutation {A B} (f : B -> A -> B) (l l' : list A) :
  (forall b x y, f (f b x) y = f (f b y) x) ->
  l ≡ₚ l' -> forall b, fold_left f l b = fold_left f l' b.
Proof.
  intros Hf Hperm.
  induction Hperm as [|x l l' _ IH|x y l|l l' l'' _ IH1 _ IH2];
    intros b; cbn [fold_left].
  - reflexivity.
  - apply IH.
  - rewrite Hf. reflexivity.
  - rewrite IH1. apply IH2.
Qed.

Section Swap_totals.

Variables l l' : list Decorated.
Hypothesis l_l' : l ≡ₚ l'.

Lemma swapCreated_returnTotal_Permutation :
  swapCreated_returnTotal l = swapCreated_returnTotal l'.
Proof.
  apply fold_left_Permutation; [|exact l_l']. intros b x y. cbv zeta.
  destruct (is_return x && Js.truthy (variant_id x)),
           (is_return y && Js.truthy (variant_id y)); lia.
Qed.

Lemma swapCreated_additionalTotal_Permutation :
  swapCreated_additionalTotal l = swapCreated_additionalTotal l'.
Proof.
  apply fold_left_Permutation; [|exact l_l']. intros b x y. cbv zeta.
  destruct (is_return x), (is_return y); cbn [negb]; lia.
Qed.

Lemma swapReceived_returnTotal_Permutation :
  swapReceived_returnTotal l = swapReceived_returnTotal l'.
Proof.
  apply fold_left_Permutation; [|exact l_l']. intros b x y.
  destruct (is_return x), (is_return y); lia.
Qed.

Lemma swapReceived_additionalTotal_Permutation :
  swapReceived_additionalTotal l = swapReceived_additionalTotal l'.
Proof.
  apply fold_left_Permutation; [|exact l_l']. intros b x y.
  destruct (is_return x), (is_return y); cbn [negb]; lia.
Qed.

End Swap_totals.




(* ================================================================== *)
(** * Further properties of the service *)

(** ** Thumbnails *)

Lemma startsWith_http_not_slashes (u : string) :
  Str.startsWith u "http" = true -> Str.startsWith u "//" = false.
Proof.
  unfold Str.startsWith. destruct u as [|c u]; [discriminate|].
  cbn [String.prefix].
  destruct (ascii_dec "h" c) as [<-|]; [reflexivity|discriminate].
Qed.

Lemma normalizeThumbUrl_cases (u : string) :
  u <> "" ->
  normalizeThumbUrl_ (Some u) =
    if Str.startsWith u "http" then Some u
    else if Str.startsWith u "//" then Some ("https:" +:+ u)
    else Some u.
Proof. destruct u; [congruence|reflexivity]. Qed.

(** X1: [normalizeThumbUrl_] is idempotent; what it returns is never the
    empty string nor a protocol-relative URL; and a protocol-relative URL is
    returned with [https:] in front. *)
Theorem normalizeThumbUrl_normal (url : option string) :
  normalizeThumbUrl_ (normalizeThumbUrl_ url) = normalizeThumbUrl_ url /\
  (forall u, normalizeThumbUrl_ url = Some u ->
     u <> "" /\ Str.startsWith u "//" = false) /\
  (forall u, url = Some u -> Str.startsWith u "//" = true ->
     normalizeThumbUrl_ url = Some ("https:" +:+ u)).
Proof.
  destruct url as [u|]; [|repeat split; discriminate].
  destruct (String.eqb_spec u "") as [->|Hne];
    [split; [reflexivity|split; intros ? [= <-]; discriminate]|].
  rewrite normalizeThumbUrl_cases by exact Hne.
  destruct (Str.startsWith u "http") eqn:Hhttp;
    [|destruct (Str.startsWith u "//") eqn:Hslash].
  - split; [|split].
    + rewrite normalizeThumbUrl_cases, Hhttp by exact Hne. reflexivity.
    + intros ? [= <-]. split; [exact Hne|]. apply startsWith_http_not_slashes, Hhttp.
    + intros ? [= <-] Hs. rewrite (startsWith_http_not_slashes _ Hhttp) in Hs.
      discriminate Hs.
  - split; [reflexivity|split].
    + intros ? [= <-]. split; [discriminate|reflexivity].
    + intros ? [= <-] _. reflexivity.
  - split; [|split].
    + rewrite normalizeThumbUrl_cases, Hhttp, Hslash by exact Hne. reflexivity.
    + intros ? [= <-]. split; [exact Hne|exact Hslash].
    + intros ? [= <-] Hs. rewrite Hs in Hslash. discriminate Hslash.
Qed.

Lemma normalizeThumbUrl_normal_witness :
  normalizeThumbUrl_ (Some "//cdn.x/img.png") = Some "https://cdn.x/img.png" /\
  "https://cdn.x/img.png" <> "" /\ Str.startsWith "https://cdn.x/img.png" "//" = false.
Proof.
  split; [reflexivity|].
  exact (proj1 (proj2 (normalizeThumbUrl_normal (Some "//cdn.x/img.png")))
           "https://cdn.x/img.png" eq_refl).
Defined.

(** ** The price formatter on integer amounts *)

Lemma lower_upper_ascii (c : ascii) :
  Str.lower_ascii (Str.upper_ascii c) = Str.lower_ascii c.
Proof. destruct c as [[] [] [] [] [] [] [] []]; reflexivity. Qed.

Lemma lower_lower_ascii (c : ascii) :
  Str.lower_ascii (Str.lower_ascii c) = Str.lower_ascii c.
Proof. destruct c as [[] [] [] [] [] [] [] []]; reflexivity. Qed.

Lemma toLowerCase_toUpperCase (s : string) :
  Str.toLowerCase (Str.toUpperCase s) = Str.toLowerCase s.
Proof.
  induction s as [|c s IH]; [reflexivity|].
  cbn. rewrite lower_upper_ascii. f_equal. exact IH.
Qed.

Lemma toLowerCase_toLowerCase (s : string) :
  Str.toLowerCase (Str.toLowerCase s) = Str.toLowerCase s.
Proof.
  induction s as [|c s IH]; [reflexivity|].
  cbn. rewrite lower_lower_ascii. f_equal. exact IH.
Qed.


Lemma round_Z (n : Z) : Num.round (inject_Z n) = n.
Proof.
  unfold Num.round, Qfloor, Qplus, inject_Z. cbn [Qnum Qden].
  change (Z.pos (1 * 2)) with 2. Z.div_mod_to_equations. lia.
Qed.



Lemma append_assoc (a b c : string) : (a +:+ b) +:+ c = a +:+ (b +:+ c).
Proof.
  induction a as [|x a IH]; [reflexivity|].
  change (String x ((a +:+ b) +:+ c) = String x (a +:+ (b +:+ c))).
  f_equal. exact IH.
Qed.

Lemma pretty_N_go_app (x : N) (s : string) :
  pretty_N_go x s = pretty_N_go x "" +:+ s.
Proof.
  revert s. induction (N.lt_wf_0 x) as [x _ IH]; intros s.
  destruct (decide (x = 0)%N) as [->|Hx]; [reflexivity|].
  rewrite !(pretty_N_go_step x) by lia.
  rewrite IH by (apply N.div_lt; lia).
  rewrite (IH (x `div` 10)%N ltac:(apply N.div_lt; lia) (String _ "")).
  rewrite append_assoc. reflexivity.
Qed.

Lemma pretty_N_hundreds (x : N) :
  (100 <= x)%N ->
  pretty x = pretty (x `div` 100)%N
             +:+ String (pretty_N_char ((x `div` 10) `mod` 10))
                   (String (pretty_N_char (x `mod` 10)) "").
Proof.
  intros Hx. unfold pretty, pretty_N.
  assert (1 <= x `div` 100)%N by (apply N.div_le_lower_bound; lia).
  assert (10 <= x `div` 10)%N by (apply N.div_le_lower_bound; lia).
  rewrite !decide_False by lia.
  rewrite (pretty_N_go_step x) by lia.
  rewrite (pretty_N_go_step (x `div` 10)) by lia.
  rewrite N.Div0.div_div. change (10 * 10)%N with 100%N.
  apply pretty_N_go_app.
Qed.

Lemma pretty_N_tens (x : N) :
  (0 < x < 100)%N ->
  Str.zeros (3 - String.length (pretty x)) +:+ pretty x =
  String "0" (String (pretty_N_char ((x `div` 10) `mod` 10))
                (String (pretty_N_char (x `mod` 10)) "")).
Proof.
  intros Hx. unfold pretty, pretty_N. rewrite decide_False by lia.
  rewrite (pretty_N_go_step x) by lia.
  destruct (decide (x < 10)%N) as [Hlt|Hge].
  - rewrite (N.div_small x 10) by lia. reflexivity.
  - assert (0 < x `div` 10 < 10)%N as [? ?].
    { split; [apply N.div_str_pos; lia|apply N.Div0.div_lt_upper_bound; lia]. }
    rewrite (pretty_N_go_step (x `div` 10)) by lia.
    rewrite (N.div_small (x `div` 10) 10) by lia.
    rewrite (N.mod_small (x `div` 10) 10) by lia. reflexivity.
Qed.

Lemma substring_append_l (a b : string) :
  String.substring 0 (String.length a) (a +:+ b) = a.
Proof.
  induction a as [|c a IH]; [destruct b; reflexivity|].
  change (String c (String.substring 0 (String.length a) (a +:+ b)) = String c a).
  f_equal. exact IH.
Qed.

Lemma substring_all (b : string) : String.substring 0 (String.length b) b = b.
Proof.
  induction b as [|c b IH]; [reflexivity|].
  change (String c (String.substring 0 (String.length b) b) = String c b).
  f_equal. exact IH.
Qed.

Lemma substring_append_r (a b : string) :
  String.substring (String.length a) (String.length b) (a +:+ b) = b.
Proof. induction a as [|c a IH]; [apply substring_all|exact IH]. Qed.

Lemma length_append (a b : string) :
  String.length (a +:+ b) = (String.length a + String.length b)%nat.
Proof.
  induction a as [|c a IH]; [reflexivity|].
  change (S (String.length (a +:+ b)) = S (String.length a + String.length b)).
  f_equal. exact IH.
Qed.

Lemma pretty_N_length (x : N) : (1 <= String.length (pretty x))%nat.
Proof.
  unfold pretty, pretty_N. destruct (decide (x = 0)%N); [cbn; lia|].
  rewrite pretty_N_go_step, pretty_N_go_app, length_append by lia. cbn. lia.
Qed.

(** The text of [n / 100] with two decimals, from the digits of [n]. *)
Lemma split_decimals (x : N) :
  (0 < x)%N ->
  let m := Str.zeros (3 - String.length (pretty x)) +:+ pretty x in
  let k := String.length m in
  String.substring 0 (k - 2) m +:+ "." +:+ String.substring (k - 2) 2 m =
  pretty (x `div` 100)%N +:+ "."
  +:+ String (pretty_N_char ((x `div` 10) `mod` 10))
        (String (pretty_N_char (x `mod` 10)) "").
Proof.
  intros Hx. destruct (decide (x < 100)%N) as [Hlt|Hge].
  - cbv zeta. rewrite pretty_N_tens by lia.
    rewrite (N.div_small x 100) by lia. reflexivity.
  - cbv zeta. rewrite (pretty_N_hundreds x) by lia.
    set (p := pretty (x `div` 100)%N).
    set (c := String _ (String _ "")).
    assert (Hlen : String.length (p +:+ c) = (String.length p + 2)%nat)
      by (rewrite length_append; reflexivity).
    assert (1 <= String.length p)%nat by apply pretty_N_length.
    rewrite Hlen. replace (3 - (String.length p + 2))%nat with 0%nat by lia.
    cbn [Str.zeros]. change ("" +:+ (p +:+ c)) with (p +:+ c).
    rewrite Hlen. replace (String.length p + 2 - 2)%nat with (String.length p) by lia.
    rewrite substring_append_l.
    change 2%nat with (String.length c) at 1. rewrite substring_append_r.
    reflexivity.
Qed.

Lemma pretty_Z_of_N (x : N) : pretty (Z.of_N x) = pretty x.
Proof. destruct x; reflexivity. Qed.

Lemma digit_of_N (x : N) : digit (Z.of_N x) = pretty_N_char x.
Proof. unfold digit. rewrite N2Z.id. reflexivity. Qed.



(** ** Options and templates *)


(** ** The locale of an order *)

Lemma outcome_try_catch {A} (m : M A) (h : Error -> M A) :
  outcome (try_catch m h) =
  match outcome m with
  | Return a => Return a
  | Throw e => outcome (h e)
  end.
Proof. unfold try_catch. destruct (outcome m) eqn:Hm; [exact Hm|reflexivity]. Qed.

Lemma extractLocale_returns this fromOrder :
  exists locale, outcome (extractLocale this fromOrder) = Return locale.
Proof.
  unfold extractLocale.
  destruct (Js.truthy (Js.of_option_string (order_cart_id fromOrder)));
    [|eexists; reflexivity].
  rewrite outcome_bind, outcome_try_catch.
  match goal with
  | |- context [outcome ?body] =>
      match body with
      | mbind _ (retrieve_from _ _ _ _) => destruct (outcome body) as [[locale|]|e]
      end
  end; eexists; reflexivity.
Qed.

(** X6: [extractLocale] never throws, whatever the cart service does.  For
    an order without cart id it returns [null] without calling anyone;
    otherwise it returns [null] or the locale of the context of a cart that
    the cart service returned, and that locale is truthy. *)
Theorem extractLocale_never_throws this fromOrder :
  exists locale,
    outcome (extractLocale this fromOrder) = Return locale /\
    (Js.truthy (Js.of_option_string (order_cart_id fromOrder)) = false ->
     extractLocale this fromOrder = mkM [] (Return VNull)) /\
    (locale = VNull \/
     exists svc id config cart,
       cartService_ this = Some svc /\ retrieve svc id config = Return cart /\
       locale = Js.member (cart_context cart) "locale" /\ Js.truthy locale = true).
Proof.
  unfold extractLocale.
  destruct (Js.truthy (Js.of_option_string (order_cart_id fromOrder))) eqn:Hcart.
  2: { exists VNull. repeat split; auto. }
  rewrite outcome_bind, outcome_try_catch.
  match goal with
  | |- context [outcome ?body] =>
      match body with
      | mbind _ (retrieve_from _ _ _ _) =>
          destruct (outcome body) as [[locale|]|e] eqn:Hbody
      end
  end.
  - exists locale. split; [reflexivity|]. split; [discriminate|]. right.
    apply bind_returns in Hbody as (cart & Hretrieve & Hbody).
    apply retrieve_from_returns in Hretrieve as (svc & Hsvc & Hr).
    destruct (Js.truthy (cart_context cart)
              && Js.truthy (Js.member (cart_context cart) "locale")) eqn:Hlocale;
      [|discriminate Hbody].
    injection Hbody as <-. apply andb_prop in Hlocale as [_ Hl].
    exists svc. do 2 eexists. exists cart. repeat split; eauto.
  - exists VNull. split; [reflexivity|]. split; [discriminate|]. left; reflexivity.
  - exists VNull. split; [reflexivity|]. split; [discriminate|]. left; reflexivity.
Qed.

Lemma extractLocale_never_throws_witness :
  Js.truthy (Js.of_option_string (order_cart_id Sample.order)) = false /\
  extractLocale Sample.service Sample.order = mkM [] (Return VNull).
Proof.
  split; [reflexivity|].
  destruct (extractLocale_never_throws Sample.service Sample.order)
    as (locale & _ & Hnone & _).
  exact (Hnone eq_refl).
Defined.

(** ** Errors on the way to the mail client *)

(** X7: an error thrown by assembly or by attachment resolution is thrown
    by [sendNotification] unchanged, and no message is handed to the mail
    client. *)
Theorem assembly_errors_propagate rt this event eventData gen templateName e :
  getTemplateNameForEvent this event = Some templateName ->
  outcome (fetchData rt this event eventData gen) = Throw e \/
  (exists data,
     outcome (fetchData rt this event eventData gen) = Return data /\
     outcome (fetchAttachments this event data gen) = Throw e) ->
  outcome (sendNotification rt this event eventData gen) = Throw e /\
  sends (sendNotification rt this event eventData gen) = [].
Proof.
  intros Ht H. unfold sendNotification. rewrite Ht.
  rewrite outcome_bind, observe_bind, sends_fetchData.
  destruct H as [Hdata|(data & Hdata & Hatt)]; rewrite Hdata; [split; reflexivity|].
  rewrite outcome_bind, observe_bind, sends_fetchAttachments, Hatt.
  split; reflexivity.
Qed.

Lemma assembly_errors_propagate_witness :
  getTemplateNameForEvent Sample.service "order.return_requested"
    = Some "returnrequested" /\
  outcome (fetchData Sample.rt Sample.service "order.return_requested"
             VNull None)
    = Throw (TypeError "Cannot read properties of undefined or null: id") /\
  outcome (sendNotification Sample.rt Sample.service "order.return_requested"
             VNull None)
    = Throw (TypeError "Cannot read properties of undefined or null: id") /\
  sends (sendNotification Sample.rt Sample.service "order.return_requested"
           VNull None) = [].
Proof.
  split; [reflexivity|]. split; [reflexivity|].
  apply (assembly_errors_propagate Sample.rt Sample.service
           "order.return_requested" VNull None "returnrequested").
  - reflexivity.
  - left. reflexivity.
Defined.

(** X8: a dispatch hands at most one message to the mail client.  On a
    first send the message has no [attachments] property when nothing was
    resolved, never an empty array; on a resend it always has the property. *)
Theorem one_message_per_dispatch rt this gen :
  (forall event eventData,
     (length (sends (sendNotification rt this event eventData gen)) <= 1)%nat /\
     forall opts,
       In opts (sends (sendNotification rt this event eventData gen)) ->
       message_attachments opts <> Some []) /\
  (forall notification config,
     (length (sends (resendNotification rt this notification config gen)) <= 1)%nat /\
     forall opts,
       In opts (sends (resendNotification rt this notification config gen)) ->
       message_attachments opts <> None).
Proof.
  split.
  - intros event eventData. split.
    + destruct (sends (sendNotification rt this event eventData gen))
        as [|opts rest] eqn:Hsends; [cbn; lia|].
      assert (Hin : In opts (sends (sendNotification rt this event eventData gen)))
        by (rewrite Hsends; left; reflexivity).
      apply sendNotification_sends in Hin as (? & ? & ? & _ & _ & _ & _ & Hone).
      rewrite Hsends in Hone. injection Hone as ->. cbn; lia.
    + intros opts Hin.
      destruct (sendNotification_sends _ _ _ _ _ _ Hin)
        as (t & data & atts & Ht & Hdata & Hatt & Hnull & Hone).
      destruct (sendNotification_returns _ _ _ _ _ _ _ _ Ht Hdata Hatt Hnull)
        as [Hsends _].
      rewrite Hone in Hsends. injection Hsends as ->. cbn.
      destruct atts; discriminate.
  - intros notification config. split.
    + destruct (sends (resendNotification rt this notification config gen))
        as [|opts rest] eqn:Hsends; [cbn; lia|].
      assert (Hin : In opts (sends (resendNotification rt this notification
                                      config gen)))
        by (rewrite Hsends; left; reflexivity).
      apply resendNotification_sends in Hin as (? & ? & _ & _ & _ & Hone).
      rewrite Hsends in Hone. injection Hone as ->. cbn; lia.
    + intros opts Hin.
      destruct (resendNotification_sends _ _ _ _ _ _ Hin)
        as (t & atts & Ht & Hnull & Hatt & Hone).
      destruct (resendNotification_returns rt _ _ config _ _ _ Ht Hnull Hatt)
        as [Hsends _].
      rewrite Hone in Hsends. injection Hsends as ->. discriminate.
Qed.

Lemma one_message_per_dispatch_witness :
  In Sample.reset_message
     (sends (sendNotification Sample.rt Sample.service "user.password_reset"
               Sample.reset_payload None)) /\
  message_attachments Sample.reset_message <> Some [] /\
  In Sample.resent_message
     (sends (resendNotification Sample.rt Sample.service Sample.stored_reset
               Sample.override None)) /\
  message_attachments Sample.resent_message <> None.
Proof.
  assert (H1 : In Sample.reset_message
                 (sends (sendNotification Sample.rt Sample.service
                           "user.password_reset" Sample.reset_payload None)))
    by (vm_compute; left; reflexivity).
  assert (H2 : In Sample.resent_message
                 (sends (resendNotification Sample.rt Sample.service
                           Sample.stored_reset Sample.override None)))
    by (vm_compute; left; reflexivity).
  split; [exact H1|]. split.
  - exact (proj2 (proj1 (one_message_per_dispatch Sample.rt Sample.service None)
                    "user.password_reset" Sample.reset_payload) _ H1).
  - split; [exact H2|].
    exact (proj2 (proj2 (one_message_per_dispatch Sample.rt Sample.service None)
                    Sample.stored_reset Sample.override) _ H2).
Defined.

(** ** Events without an assembler *)

Lemma fetchData_default rt this event eventData gen :
  ~ In event fetchData_cases ->
  fetchData rt this event eventData gen =
    mkM [Stage "fetchData" event] (Return eventData).
Proof.
  intros Hcase. unfold fetchData.
  repeat match goal with
         | |- context [String.eqb event ?label] =>
             rewrite (proj2 (String.eqb_neq event label))
               by (intros ->; apply Hcase; cbn; tauto)
         end.
  reflexivity.
Qed.

(** X9: for an event that is no case of [fetchData] and has a template, the
    payload is the context: a payload that is [undefined] or [null] makes
    the dispatch throw a [TypeError] before anything is sent; any other
    payload is sent as it is, without attachments and without any
    collaborator called, to the payload's [email], and the record holds the
    payload, or the empty object when the payload is falsy. *)
Theorem unknown_event_passes_payload rt this event eventData gen templateName :
  ~ In event fetchData_cases ->
  getTemplateNameForEvent this event = Some templateName ->
  if Js.nullish eventData
  then exists what,
         outcome (sendNotification rt this event eventData gen)
           = Throw (TypeError what) /\
         sends (sendNotification rt this event eventData gen) = []
  else let opts :=
         {| template := templateName;
            message_to := Js.member eventData "email";
            message_attachments := None;
            locals_data := eventData;
            locals_env := process_env rt |} in
       sendNotification rt this event eventData gen =
         mkM [ Stage "fetchData" event; Stage "fetchAttachments" event; Send opts ]
             (Return {| to := Js.member eventData "email";
                        status := settled_status
                                    (Email_send rt (email_config this) opts);
                        data := Js.or eventData (VObj []) |}).
Proof.
  intros Hcase Ht.
  assert (Hrun : sendNotification rt this event eventData gen =
                 (emit (Stage "fetchData" event);;
                  emit (Stage "fetchAttachments" event);;
                  email ← get eventData "email";
                  let opts :=
                    {| template := templateName;
                       message_to := email;
                       message_attachments := None;
                       locals_data := eventData;
                       locals_env := process_env rt |} in
                  status ← send rt this opts;
                  ret {| to := email; status := status;
                         data := Js.or eventData (VObj []) |})).
  { unfold sendNotification. rewrite Ht, (fetchData_default _ _ _ _ _ Hcase).
    unfold mbind, M_bind. cbn [outcome trace emit].
    rewrite fetchAttachments_other_events
      by (intros ->; apply Hcase; cbn; tauto).
    reflexivity. }
  rewrite Hrun. unfold get.
  destruct (Js.nullish eventData); [eexists; split; reflexivity|reflexivity].
Qed.

Lemma unknown_event_passes_payload_witness :
  ~ In "order.updated" fetchData_cases /\
  getTemplateNameForEvent Warehouse.service "order.updated" = Some "orderupdated" /\
  outcome (sendNotification Sample.rt Warehouse.service "order.updated"
             Sample.reset_payload None)
    = Return {| to := VStr "admin@example.com";
                status := sent;
                data := Sample.reset_payload |}.
Proof.
  assert (Hcase : ~ In "order.updated" fetchData_cases)
    by (cbn; intuition discriminate).
  split; [exact Hcase|]. split; [reflexivity|].
  pose proof (unknown_event_passes_payload Sample.rt Warehouse.service
                "order.updated" Sample.reset_payload None "orderupdated"
                Hcase eq_refl) as Hrun.
  cbn [Js.nullish Sample.reset_payload] in Hrun. rewrite Hrun. reflexivity.
Defined.

(** ** Recipients *)

(** X10: the context of [restock-notification.restocked] has no [email]
    property, the addresses being kept under [emails]: whenever a message is
    sent for this event, its recipient is [undefined]. *)
Theorem restock_recipient_is_undefined rt this eventData gen opts :
  In opts (sends (sendNotification rt this "restock-notification.restocked"
                    eventData gen)) ->
  message_to opts = VUndefined /\
  Js.member (locals_data opts) "emails" = Js.member eventData "emails".
Proof.
  intros Hin.
  destruct (sendNotification_sends _ _ _ _ _ _ Hin)
    as (t & data & atts & Ht & Hdata & Hatt & Hnull & Hone).
  destruct (sendNotification_returns _ _ _ _ _ _ _ _ Ht Hdata Hatt Hnull)
    as [Hsends _].
  rewrite Hone in Hsends. injection Hsends as ->. cbn [message_to locals_data].
  change (fetchData rt this "restock-notification.restocked" eventData gen)
    with (emit (Stage "fetchData" "restock-notification.restocked");;
          restockNotificationData this eventData) in Hdata.
  rewrite outcome_bind in Hdata. cbn [outcome emit] in Hdata.
  unfold restockNotificationData in Hdata.
  apply bind_returns in Hdata as (variant_id & _ & Hdata).
  apply bind_returns in Hdata as (emails & Hemails & Hdata).
  apply bind_returns in Hdata as (variant & _ & Hdata).
  injection Hdata as <-.
  unfold get in Hemails. destruct (Js.nullish eventData); [discriminate|].
  injection Hemails as <-. split; reflexivity.
Qed.

Lemma restock_recipient_is_undefined_witness :
  exists opts,
    In opts (sends (sendNotification Sample.rt Warehouse.service
                      "restock-notification.restocked"
                      Warehouse.restock_payload None)) /\
    message_to opts = VUndefined /\
    Js.member (locals_data opts) "emails"
      = VArr [ VStr "a@example.com"; VStr "b@example.com" ].
Proof.
  destruct (sends (sendNotification Sample.rt Warehouse.service
                     "restock-notification.restocked"
                     Warehouse.restock_payload None))
    as [|opts rest] eqn:Hsends; [vm_compute in Hsends; discriminate Hsends|].
  exists opts. split; [left; reflexivity|].
  assert (Hin : In opts (sends (sendNotification Sample.rt Warehouse.service
                                  "restock-notification.restocked"
                                  Warehouse.restock_payload None)))
    by (rewrite Hsends; left; reflexivity).
  exact (restock_recipient_is_undefined Sample.rt Warehouse.service
           Warehouse.restock_payload None opts Hin).
Defined.

Lemma orderShipmentCreatedData_email rt this d ctx :
  outcome (orderShipmentCreatedData rt this d) = Return ctx ->
  exists order, retrieved_order this order /\
                Js.member ctx "email" = VStr (order_email order).
Proof.
  unfold orderShipmentCreatedData. intros H.
  apply bind_returns in H as (id & _ & H).
  apply bind_returns in H as (fid & _ & H).
  apply bind_returns in H as (order & Horder & H).
  apply bind_returns in H as (shipment & _ & H).
  apply bind_returns in H as (locale & _ & H).
  apply bind_returns in H as (date & _ & H).
  injection H as <-.
  apply retrieve_from_returns in Horder as (svc & Hsvc & Horder).
  exists order. split; [left; eauto|reflexivity].
Qed.

Lemma claimShipmentCreatedData_email this d ctx :
  outcome (claimShipmentCreatedData this d) = Return ctx ->
  exists order, retrieved_order this order /\
                Js.member ctx "email" = VStr (order_email order).
Proof.
  unfold claimShipmentCreatedData. intros H.
  apply bind_returns in H as (id & _ & H).
  apply bind_returns in H as (fid & _ & H).
  apply bind_returns in H as (claim & Hclaim & H).
  apply bind_returns in H as (shipment & _ & H).
  apply bind_returns in H as (locale & _ & H).
  injection H as <-.
  apply retrieve_from_returns in Hclaim as (svc & Hsvc & Hclaim).
  exists (claim_order claim). split; [right; eauto 10|reflexivity].
Qed.

Lemma returnRequestedData_email rt this d ctx :
  outcome (returnRequestedData rt this d) = Return ctx ->
  exists order, retrieved_order this order /\
                Js.member ctx "email" = VStr (order_email order).
Proof.
  unfold returnRequestedData. intros H.
  apply bind_returns in H as (id & _ & H).
  apply bind_returns in H as (rid & _ & H).
  apply bind_returns in H as (returnRequest & _ & H).
  apply bind_returns in H as (items & _ & H).
  apply bind_returns in H as (order & Horder & H).
  cbv zeta in H.
  apply bind_returns in H as (returnItems & _ & H).
  apply bind_returns in H as (locale & _ & H).
  injection H as <-.
  apply retrieve_from_returns in Horder as (svc & Hsvc & Horder).
  exists order. split; [left; eauto|reflexivity].
Qed.

Lemma swapReceivedData_email rt this d ctx :
  outcome (swapReceivedData rt this d) = Return ctx ->
  exists order, retrieved_order this order /\
                Js.member ctx "email" = VStr (order_email order).
Proof.
  unfold swapReceivedData. intros H.
  apply bind_returns in H as (id & _ & H).
  apply bind_returns in H as (store_svc & _ & H).
  apply bind_returns in H as (store & _ & H).
  apply bind_returns in H as (swap & _ & H).
  cbv zeta in H.
  apply bind_returns in H as (items & _ & H).
  apply bind_returns in H as (order & Horder & H).
  apply bind_returns in H as (cart & _ & H).
  apply bind_returns in H as (decoratedItems & _ & H).
  apply bind_returns in H as (locale & _ & H).
  injection H as <-.
  apply retrieve_from_returns in Horder as (svc & Hsvc & Horder).
  exists order. split; [left; eauto|reflexivity].
Qed.

Lemma swapCreatedData_email rt this d ctx :
  outcome (swapCreatedData rt this d) = Return ctx ->
  exists order, retrieved_order this order /\
                Js.member ctx "email" = VStr (order_email order).
Proof.
  unfold swapCreatedData. intros H.
  apply bind_returns in H as (id & _ & H).
  apply bind_returns in H as (store_svc & _ & H).
  apply bind_returns in H as (store & _ & H).
  apply bind_returns in H as (swap & _ & H).
  cbv zeta in H.
  apply bind_returns in H as (items & _ & H).
  apply bind_returns in H as (order & Horder & H).
  apply bind_returns in H as (cart & _ & H).
  apply bind_returns in H as (decoratedItems & _ & H).
  apply bind_returns in H as (locale & _ & H).
  injection H as <-.
  apply retrieve_from_returns in Horder as (svc & Hsvc & Horder).
  exists order. split; [left; eauto|reflexivity].
Qed.

Lemma swapShipmentCreatedData_email rt this d ctx :
  outcome (swapShipmentCreatedData rt this d) = Return ctx ->
  exists order, retrieved_order this order /\
                Js.member ctx "email" = VStr (order_email order).
Proof.
  unfold swapShipmentCreatedData. intros H.
  apply bind_returns in H as (id & _ & H).
  apply bind_returns in H as (fid & _ & H).
  apply bind_returns in H as (swap & _ & H).
  apply bind_returns in H as (order & Horder & H).
  apply bind_returns in H as (cart & _ & H).
  cbv zeta in H.
  apply bind_returns in H as (items & _ & H).
  apply bind_returns in H as (returnItems & _ & H).
  apply bind_returns in H as (ts & _ & H).
  apply bind_returns in H as (returnTotal & _ & H).
  apply bind_returns in H as (ts' & _ & H).
  apply bind_returns in H as (additionalTotal & _ & H).
  apply bind_returns in H as (shipment & _ & H).
  apply bind_returns in H as (locale & _ & H).
  apply bind_returns in H as (items' & _ & H).
  injection H as <-.
  apply retrieve_from_returns in Horder as (svc & Hsvc & Horder).
  exists order. split; [left; eauto|reflexivity].
Qed.

(** X11: for the shipment, return, swap and claim events, whenever a
    message is sent its recipient is the email, a string, of an order that
    the order service returned, or of the order of the claim that the claim
    service returned. *)
Theorem order_events_recipient rt this event eventData gen opts :
  In event order_events ->
  In opts (sends (sendNotification rt this event eventData gen)) ->
  exists order,
    retrieved_order this order /\ message_to opts = VStr (order_email order).
Proof.
  intros Hevent Hin.
  destruct (sendNotification_sends _ _ _ _ _ _ Hin)
    as (t & data & atts & Ht & Hdata & Hatt & Hnull & Hone).
  destruct (sendNotification_returns _ _ _ _ _ _ _ _ Ht Hdata Hatt Hnull)
    as [Hsends _].
  rewrite Hone in Hsends. injection Hsends as ->. cbn [message_to].
  cbn in Hevent.
  destruct Hevent as [<-|[<-|[<-|[<-|[<-|[<-|[<-|[]]]]]]]];
    unfold fetchData in Hdata; rewrite outcome_bind in Hdata;
    cbn [outcome emit String.eqb Ascii.eqb Bool.eqb] in Hdata.
  - apply (orderShipmentCreatedData_email _ _ _ _ Hdata).
  - apply (returnRequestedData_email _ _ _ _ Hdata).
  - apply (returnRequestedData_email _ _ _ _ Hdata).
  - apply (swapReceivedData_email _ _ _ _ Hdata).
  - apply (swapCreatedData_email _ _ _ _ Hdata).
  - apply (swapShipmentCreatedData_email _ _ _ _ Hdata).
  - apply (claimShipmentCreatedData_email _ _ _ Hdata).
Qed.

Lemma order_events_recipient_witness :
  In "swap.created" order_events /\
  exists opts,
    In opts (sends (sendNotification Sample.rt Sample.service "swap.created"
                      Sample.swap_payload None)) /\
    exists order,
      retrieved_order Sample.service order /\
      message_to opts = VStr (order_email order).
Proof.
  assert (Hevent : In "swap.created" order_events) by (cbn; tauto).
  split; [exact Hevent|].
  destruct (sends (sendNotification Sample.rt Sample.service "swap.created"
                     Sample.swap_payload None))
    as [|opts rest] eqn:Hsends; [vm_compute in Hsends; discriminate Hsends|].
  exists opts. split; [left; reflexivity|].
  assert (Hin : In opts (sends (sendNotification Sample.rt Sample.service
                                  "swap.created" Sample.swap_payload None)))
    by (rewrite Hsends; left; reflexivity).
  exact (order_events_recipient Sample.rt Sample.service "swap.created"
           Sample.swap_payload None opts Hevent Hin).
Defined.

(** ** Orders retrieved without a relation *)

(** X12: when the order service returns an order without its discounts, or
    without its gift cards, [orderPlacedData] returns no context, and
    [orderCanceledData] throws a [TypeError]: the maps are guarded by
    [if (order.discounts)], the later [order.discounts.length] is not. *)
Theorem order_without_relation_throws rt this eventData svc order :
  orderService_ this = Some svc ->
  (forall id config, retrieve svc id config = Return order) ->
  order_discounts order = None \/ order_gift_cards order = None ->
  (forall ctx, outcome (orderPlacedData rt this eventData) <> Return ctx) /\
  (Js.nullish eventData = false ->
   exists what,
     outcome (orderCanceledData rt this eventData) = Throw (TypeError what)).
Proof.
  intros Hsvc Hretrieve Hmissing. split.
  - intros ctx H.
    apply orderPlacedData_discounts in H
      as (svc' & id & config & order' & ds & gcs & Hsvc' & Horder & Hd & Hg & _).
    rewrite Hsvc in Hsvc'. injection Hsvc' as <-.
    rewrite Hretrieve in Horder. injection Horder as <-.
    destruct Hmissing; congruence.
  - intros Hnull. unfold orderCanceledData, get, retrieve_from.
    rewrite Hnull, Hsvc. cbn [member_of_this].
    rewrite !outcome_bind. cbn [outcome ret mret M_ret].
    rewrite !outcome_bind. cbn [outcome ret mret M_ret call].
    rewrite Hretrieve. cbv zeta. rewrite outcome_bind.
    destruct (extractLocale_returns this order) as (locale & Hlocale).
    rewrite Hlocale.
    destruct (order_discounts order) as [ds|]; [|eexists; reflexivity].
    rewrite outcome_bind. cbn [length_of outcome ret mret M_ret].
    destruct Hmissing as [Hd|Hg]; [discriminate Hd|].
    rewrite Hg. eexists. reflexivity.
Qed.

Lemma order_without_relation_throws_witness :
  order_discounts Warehouse.bare_order = None /\
  (forall ctx,
     outcome (orderPlacedData Sample.rt Warehouse.bare_service Sample.order_payload)
       <> Return ctx) /\
  exists what,
    outcome (orderCanceledData Sample.rt Warehouse.bare_service Sample.order_payload)
      = Throw (TypeError what).
Proof.
  split; [reflexivity|].
  destruct (order_without_relation_throws Sample.rt Warehouse.bare_service
              Sample.order_payload
              {| retrieve := fun _ _ => Return Warehouse.bare_order |}
              Warehouse.bare_order eq_refl (fun _ _ => eq_refl)
              (or_introl eq_refl)) as [Hplaced Hcanceled].
  split; [exact Hplaced|exact (Hcanceled eq_refl)].
Defined.

(** ** The items of a return *)

Lemma lineItems_returns this ids config items :
  outcome (lineItems this ids config) = Return items ->
  exists svc, lineItemService_ this = Some svc /\
              lineItem_list svc ids config = Return items.
Proof.
  unfold lineItems. destruct (lineItemService_ this) as [svc|]; [|discriminate].
  intros H. exists svc. split; [reflexivity|exact H].
Qed.

(** X13: [returnRequestedData] returns a context only if every item of the
    return names a line item that the line-item service listed for the ids
    of the return; the context then has one line under [items] for each item
    of the return. *)
Theorem returnRequestedData_needs_line_items rt this eventData ctx :
  outcome (returnRequestedData rt this eventData) = Return ctx ->
  exists rsvc rid rconfig returnRequest lsvc lconfig items,
    returnService_ this = Some rsvc /\
    retrieve rsvc rid rconfig = Return returnRequest /\
    lineItemService_ this = Some lsvc /\
    lineItem_list lsvc (map ri_item_id (ret_items returnRequest)) lconfig
      = Return items /\
    Forall (fun i => exists found,
                find_item items (ri_item_id i) = Some found /\
                item_id found = ri_item_id i)
           (ret_items returnRequest) /\
    exists lines,
      Js.member ctx "items" = VArr lines /\
      length lines = length (ret_items returnRequest).
Proof.
  unfold returnRequestedData. intros H.
  apply bind_returns in H as (id & _ & H).
  apply bind_returns in H as (rid & _ & H).
  apply bind_returns in H as (returnRequest & Hreturn & H).
  apply bind_returns in H as (items & Hitems & H).
  apply bind_returns in H as (order & _ & H).
  cbv zeta in H.
  apply bind_returns in H as (returnItems & Hmap & H).
  apply bind_returns in H as (locale & _ & H).
  injection H as <-.
  apply retrieve_from_returns in Hreturn as (rsvc & Hrsvc & Hreturn).
  apply lineItems_returns in Hitems as (lsvc & Hlsvc & Hitems).
  apply Promise_all_map_returns in Hmap.
  exists rsvc, rid. eexists. exists returnRequest, lsvc. eexists. exists items.
  split; [exact Hrsvc|]. split; [exact Hreturn|]. split; [exact Hlsvc|].
  split; [exact Hitems|]. split.
  - clear -Hmap. induction Hmap as [|i y l ys Hi _ IH]; constructor; [|exact IH].
    destruct (find_item items (ri_item_id i)) as [found|] eqn:Hfind;
      [|discriminate Hi].
    exists found. split; [reflexivity|].
    unfold find_item in Hfind. apply List.find_some in Hfind as [_ Heq].
    apply String.eqb_eq in Heq. exact Heq.
  - exists (map snd returnItems). split; [reflexivity|].
    rewrite length_map. symmetry. exact (Forall2_length _ _ _ Hmap).
Qed.

Lemma returnRequestedData_needs_line_items_witness :
  exists ctx lines,
    outcome (returnRequestedData Sample.rt Sample.service Warehouse.return_payload)
      = Return ctx /\
    Js.member ctx "items" = VArr lines /\
    length lines = 1%nat.
Proof.
  destruct (outcome (returnRequestedData Sample.rt Sample.service
                       Warehouse.return_payload))
    as [ctx|e] eqn:Hctx; [|vm_compute in Hctx; discriminate Hctx].
  destruct (returnRequestedData_needs_line_items Sample.rt Sample.service
              Warehouse.return_payload ctx Hctx)
    as (rsvc & rid & rconfig & returnRequest & lsvc & lconfig & items
        & Hrsvc & Hreturn & _ & _ & _ & lines & Hlines & Hlen).
  injection Hrsvc as <-. injection Hreturn as <-.
  exists ctx, lines. repeat split; assumption.
Defined.

(** ** Invitations *)

Lemma lookup_assign_notin k (kvs o : Js.fields) :
  Js.lookup_field k kvs = None ->
  Js.lookup_field k (Js.assign kvs o) = Js.lookup_field k o.
Proof.
  unfold Js.assign. revert o. induction kvs as [|[k' v] kvs IH]; intros o Hk.
  - reflexivity.
  - cbn in Hk. destruct (String.eqb k k') eqn:E; [discriminate|].
    cbn [fold_left fst snd]. rewrite IH by exact Hk.
    apply lookup_set_field_ne. apply String.eqb_neq. exact E.
Qed.

Lemma lookup_assign_first k v (kvs o : Js.fields) :
  NoDup (map fst kvs) ->
  Js.lookup_field k kvs = Some v ->
  Js.lookup_field k (Js.assign kvs o) = Some v.
Proof.
  unfold Js.assign. revert o. induction kvs as [|[k' v'] kvs IH]; intros o Hnd Hk.
  - discriminate.
  - apply NoDup_cons in Hnd as [Hnotin Hnd]. cbn in Hk. cbn [fold_left fst snd].
    destruct (String.eqb k k') eqn:E.
    + injection Hk as ->. apply String.eqb_eq in E as <-.
      assert (Hnone : Js.lookup_field k kvs = None).
      { clear -Hnotin. induction kvs as [|[k'' v''] kvs IH]; [reflexivity|].
        cbn. cbn in Hnotin. apply not_elem_of_cons in Hnotin as [Hne Hrest].
        apply String.eqb_neq in Hne. rewrite Hne. apply IH, Hrest. }
      pose proof (lookup_assign_notin k kvs (Js.set_field k v o) Hnone) as Hl.
      unfold Js.assign in Hl. rewrite Hl. apply lookup_set_field_eq.
    + apply IH; assumption.
Qed.

(** X14: [inviteData] keeps every property of the payload; the [email] of
    its context is the payload's own [email] when it has one, which
    overrides [user_email], and the payload's [user_email] otherwise.  A
    payload that is [undefined] or [null] makes it throw a [TypeError]. *)
Theorem invite_email :
  (forall fields,
     NoDup (map fst fields) ->
     exists ctx,
       inviteData (VObj fields) = mkM [] (Return ctx) /\
       Js.member ctx "email" =
         match Js.lookup_field "email" fields with
         | Some email => email
         | None => Js.member (VObj fields) "user_email"
         end /\
       forall k v, Js.lookup_field k fields = Some v -> Js.member ctx k = v) /\
  (forall data,
     Js.nullish data = true ->
     exists what, inviteData data = mkM [] (Throw (TypeError what))).
Proof.
  split.
  - intros fields Hnd. eexists. split; [reflexivity|].
    unfold Js.member, Js.spread, Js.own_fields, Js.literal.
    fold (Js.assign fields
            (Js.assign [ ("email",
                           default VUndefined
                             (Js.lookup_field "user_email" fields)) ] [])).
    split.
    + destruct (Js.lookup_field "email" fields) as [email|] eqn:He.
      * rewrite (lookup_assign_first _ _ _ _ Hnd He). reflexivity.
      * rewrite (lookup_assign_notin _ _ _ He). reflexivity.
    + intros k v Hk. rewrite (lookup_assign_first _ _ _ _ Hnd Hk). reflexivity.
  - intros data Hnull. unfold inviteData, get. rewrite Hnull.
    eexists. reflexivity.
Qed.

Lemma invite_email_witness :
  NoDup (map fst Warehouse.invitation) /\
  exists ctx,
    inviteData (VObj Warehouse.invitation) = mkM [] (Return ctx) /\
    Js.member ctx "email" = VStr "new@example.com" /\
    Js.member ctx "token" = VStr "t".
Proof.
  assert (Hnd : NoDup (map fst Warehouse.invitation)).
  { cbn. apply NoDup_cons_2;
      [apply not_elem_of_cons; split; [discriminate|apply not_elem_of_nil]|].
    apply NoDup_cons_2; [apply not_elem_of_nil|apply NoDup_nil_2]. }
  split; [exact Hnd|].
  destruct (proj1 invite_email Warehouse.invitation Hnd)
    as (ctx & Hctx & Hemail & Hkeep).
  exists ctx. split; [exact Hctx|]. split; [exact Hemail|].
  exact (Hkeep "token" (VStr "t") eq_refl).
Defined.

(** ** The link of a swap *)

Lemma replace_first_prefix (pat rep s : string) :
  String.prefix pat s = true ->
  Str.replace_first pat rep s =
    rep +:+ String.substring (String.length pat)
              (String.length s - String.length pat) s.
Proof. intros H. destruct s; cbn [Str.replace_first]; rewrite H; reflexivity. Qed.

Lemma replace_first_cart_id (rep pre post : string) :
  ~ In "{"%char (list_ascii_of_string pre) ->
  Str.replace_first "{cart_id}" rep (pre +:+ "{cart_id}" +:+ post)
  = pre +:+ rep +:+ post.
Proof.
  induction pre as [|c pre IH]; intros Hpre.
  - rewrite replace_first_prefix
      by (apply String.prefix_correct, (substring_append_l "{cart_id}")).
    change ("" +:+ rep +:+ post) with (rep +:+ post). f_equal.
    change (String.substring 0 (String.length post - 0) post = post).
    rewrite Nat.sub_0_r. apply substring_all.
  - change (String c pre +:+ "{cart_id}" +:+ post)
      with (String c (pre +:+ "{cart_id}" +:+ post)).
    change (String c pre +:+ rep +:+ post) with (String c (pre +:+ rep +:+ post)).
    cbn [list_ascii_of_string] in Hpre.
    assert (Hc : c <> "{"%char) by (intros ->; apply Hpre; left; reflexivity).
    assert (Hrest : ~ In "{"%char (list_ascii_of_string pre))
      by (intros Hin; apply Hpre; right; exact Hin).
    cbn [Str.replace_first String.prefix].
    destruct (ascii_dec "{" c) as [<-|_]; [congruence|].
    f_equal. apply IH, Hrest.
Qed.

Lemma replace_first_absent (rep s : string) :
  ~ In "{"%char (list_ascii_of_string s) ->
  Str.replace_first "{cart_id}" rep s = s.
Proof.
  induction s as [|c s IH]; intros Hs; [reflexivity|].
  cbn [list_ascii_of_string] in Hs.
  cbn [Str.replace_first String.prefix].
  destruct (ascii_dec "{" c) as [<-|_]; [exfalso; apply Hs; left; reflexivity|].
  f_equal. apply IH. intros Hin. apply Hs. right. exact Hin.
Qed.

(** X15: the swap link is the store's template with its first
    [{cart_id}] replaced by the cart id of the swap, whatever follows it,
    other placeholders included (the cart id is taken without [$], which
    [replace] would expand); a template without any brace is left
    unchanged. *)
Theorem swap_link_first_placeholder store swap :
  (forall pre post,
     store_swap_link_template store = pre +:+ "{cart_id}" +:+ post ->
     ~ In "{"%char (list_ascii_of_string pre) ->
     ~ In "$"%char (list_ascii_of_string (swap_cart_id swap)) ->
     swap_link store swap = pre +:+ swap_cart_id swap +:+ post) /\
  (~ In "{"%char (list_ascii_of_string (store_swap_link_template store)) ->
   swap_link store swap = store_swap_link_template store).
Proof.
  unfold swap_link. split.
  - intros pre post -> Hpre _. apply replace_first_cart_id, Hpre.
  - apply replace_first_absent.
Qed.

Lemma swap_link_first_placeholder_witness :
  ~ In "{"%char (list_ascii_of_string "https://shop.x/swap/") /\
  ~ In "$"%char (list_ascii_of_string (swap_cart_id Sample.swap)) /\
  swap_link {| store_swap_link_template := "https://shop.x/swap/{cart_id}?again={cart_id}" |}
    Sample.swap
  = "https://shop.x/swap/cart_1?again={cart_id}".
Proof.
  assert (Hpre : ~ In "{"%char (list_ascii_of_string "https://shop.x/swap/"))
    by (cbn; intuition discriminate).
  assert (Hid : ~ In "$"%char (list_ascii_of_string (swap_cart_id Sample.swap)))
    by (cbn; intuition discriminate).
  split; [exact Hpre|]. split; [exact Hid|].
  exact (proj1 (swap_link_first_placeholder
                  {| store_swap_link_template :=
                       "https://shop.x/swap/{cart_id}?again={cart_id}" |}
                  Sample.swap)
           "https://shop.x/swap/" "?again={cart_id}" eq_refl Hpre Hid).
Defined.

(** ** Attachments *)

Lemma outcome_bind_Return {A B} (m : M A) (f : A -> M B) (a : A) :
  outcome m = Return a -> outcome (m ≫= f) = outcome (f a).
Proof. intros H. rewrite outcome_bind, H. reflexivity. Qed.

Lemma trace_bind_Return {A B} (m : M A) (f : A -> M B) (a : A) :
  outcome m = Return a -> trace (m ≫= f) = trace m ++ trace (f a).
Proof. intros H. rewrite trace_bind, H. reflexivity. Qed.

Lemma outcome_get (v : value) (k : string) :
  Js.nullish v = false -> outcome (get v k) = Return (Js.member v k).
Proof. intros H. unfold get. rewrite H. reflexivity. Qed.

Lemma trace_get (v : value) (k : string) : trace (get v k) = [].
Proof. unfold get. destruct (Js.nullish v); reflexivity. Qed.

Lemma truthy_not_nullish (v : value) : Js.truthy v = true -> Js.nullish v = false.
Proof. destruct v; try reflexivity; discriminate. Qed.

Lemma labels_of_documents (docs : list value) :
  Forall (fun d => Js.nullish d = false) docs ->
  Promise_all_map
    (fun d =>
       base_64 ← get d "base_64";
       type ← get d "type";
       ret {| att_name := "return-label"; att_base64 := base_64; att_type := type |})
    docs
  = mkM [] (Return (map return_label docs)).
Proof.
  induction 1 as [|d docs Hd _ IH]; [reflexivity|].
  cbn [Promise_all_map]. rewrite IH. unfold get. rewrite Hd. reflexivity.
Qed.

(** X16: for [swap.created] and [order.return_requested], when the return
    has a shipping method and the provider returns its label documents,
    [fetchAttachments] returns one [return-label] attachment for each
    document, in the provider's order, with the document's [base_64] and
    [type]; with a generator that has [createReturnInvoice], the invoice
    follows the labels as the last attachment, of type [application/pdf]. *)
Theorem fetchAttachments_labels this event data gen fps docs :
  event = "swap.created" \/ event = "order.return_requested" ->
  let return_request := Js.member data "return_request" in
  let shipping_method := Js.member return_request "shipping_method" in
  let shipping_option := Js.member shipping_method "shipping_option" in
  Js.nullish data = false ->
  Js.nullish return_request = false ->
  Js.truthy shipping_method = true ->
  Js.nullish shipping_option = false ->
  fulfillmentProviderService_ this = Some fps ->
  retrieveDocuments fps (Js.member shipping_option "provider_id")
    (Js.member return_request "shipping_data") "label" = Return docs ->
  Forall (fun d => Js.nullish d = false) docs ->
  match gen with
  | Some {| createReturnInvoice := Some create |} =>
      forall base64,
        create (Js.member data "order") (Js.member return_request "items")
          = Return base64 ->
        outcome (fetchAttachments this event data gen) =
          Return (map return_label docs
                  ++ [ {| att_name := "invoice";
                          att_base64 := base64;
                          att_type := VStr "application/pdf" |} ])
  | _ => outcome (fetchAttachments this event data gen)
         = Return (map return_label docs)
  end.
Proof.
  intros Hevent return_request shipping_method shipping_option
    Hdata Hrr Hsm Hso Hfps Hdocs Hall.
  unfold shipping_option, shipping_method, return_request in *.
  clear return_request shipping_method shipping_option.
  assert (Hlabels :
    outcome
      (shipping_option ← get (Js.member (Js.member data "return_request")
                                "shipping_method") "shipping_option";
       provider ← get shipping_option "provider_id";
       fps ← member_of_this "fulfillmentProviderService_"
               (fulfillmentProviderService_ this);
       lbl ← call "fulfillmentProviderService_" "retrieveDocuments"
               [provider; Js.member (Js.member data "return_request") "shipping_data";
                VStr "label"]
               (retrieveDocuments fps provider
                  (Js.member (Js.member data "return_request") "shipping_data")
                  "label");
       labels ← Promise_all_map
                  (fun d =>
                     base_64 ← get d "base_64";
                     type ← get d "type";
                     ret {| att_name := "return-label";
                            att_base64 := base_64;
                            att_type := type |})
                  lbl;
       ret ([] ++ labels))
    = Return (map return_label docs)).
  { rewrite (outcome_bind_Return _ _ _
               (outcome_get _ _ (truthy_not_nullish _ Hsm))).
    rewrite (outcome_bind_Return _ _ _ (outcome_get _ _ Hso)).
    rewrite Hfps.
    rewrite (outcome_bind_Return (member_of_this _ (Some fps)) _ fps eq_refl).
    rewrite (outcome_bind_Return (call _ _ _ _) _ docs Hdocs).
    rewrite (labels_of_documents docs Hall). reflexivity. }
  unfold fetchAttachments.
  assert (Heqb : String.eqb event "swap.created"
                 || String.eqb event "order.return_requested" = true)
    by (destruct Hevent as [->| ->]; reflexivity).
  rewrite Heqb.
  destruct gen as [[[create|]]|]; [intros base64 Hcreate|..];
    rewrite (outcome_bind_Return (emit _) _ tt eq_refl);
    rewrite (outcome_bind_Return _ _ _ (outcome_get _ _ Hdata));
    rewrite (outcome_bind_Return _ _ _ (outcome_get _ _ Hrr));
    rewrite (outcome_bind_Return _ _ _ (outcome_get _ _ Hrr));
    rewrite Hsm;
    rewrite (outcome_bind_Return _ _ _ Hlabels).
  - rewrite (outcome_bind_Return _ _ _ (outcome_get _ _ Hdata)).
    rewrite (outcome_bind_Return _ _ _ (outcome_get _ _ Hdata)).
    rewrite (outcome_bind_Return _ _ _ (outcome_get _ _ Hrr)).
    rewrite (outcome_bind_Return (call _ _ _ _) _ base64 Hcreate). reflexivity.
  - reflexivity.
  - reflexivity.
Qed.

Lemma fetchAttachments_labels_witness :
  outcome (fetchAttachments Warehouse.service "order.return_requested"
             Warehouse.labelled_return None)
  = Return [ {| att_name := "return-label";
                att_base64 := VStr "JVBERi0x";
                att_type := VStr "application/pdf" |} ].
Proof.
  refine (fetchAttachments_labels Warehouse.service "order.return_requested"
            Warehouse.labelled_return None
            (fulfillmentProviderService Warehouse.container) [ Warehouse.label ]
            (or_intror eq_refl) eq_refl eq_refl eq_refl eq_refl eq_refl eq_refl _).
  repeat constructor.
Defined.

(** X17: for a return without shipping method and without invoice
    generator, [fetchAttachments] returns no attachment and calls no
    service, whatever the event. *)
Theorem fetchAttachments_nothing_to_attach this event data gen :
  Js.nullish data = false ->
  Js.nullish (Js.member data "return_request") = false ->
  Js.truthy (Js.member (Js.member data "return_request") "shipping_method") = false ->
  gen = None \/ gen = Some {| createReturnInvoice := None |} ->
  outcome (fetchAttachments this event data gen) = Return [] /\
  trace (fetchAttachments this event data gen) = [Stage "fetchAttachments" event].
Proof.
  intros Hdata Hrr Hsm Hgen. unfold fetchAttachments.
  destruct (String.eqb event "swap.created"
            || String.eqb event "order.return_requested"); [|split; reflexivity].
  split.
  - rewrite (outcome_bind_Return (emit _) _ tt eq_refl).
    rewrite (outcome_bind_Return _ _ _ (outcome_get _ _ Hdata)).
    rewrite (outcome_bind_Return _ _ _ (outcome_get _ _ Hrr)).
    rewrite (outcome_bind_Return _ _ _ (outcome_get _ _ Hrr)).
    rewrite Hsm.
    rewrite (outcome_bind_Return (ret _) _ [] eq_refl).
    destruct Hgen as [->| ->]; reflexivity.
  - rewrite (trace_bind_Return (emit _) _ tt eq_refl).
    rewrite (trace_bind_Return _ _ _ (outcome_get _ _ Hdata)).
    rewrite (trace_bind_Return _ _ _ (outcome_get _ _ Hrr)).
    rewrite (trace_bind_Return _ _ _ (outcome_get _ _ Hrr)).
    rewrite Hsm.
    rewrite (trace_bind_Return (ret _) _ [] eq_refl).
    rewrite !trace_get.
    destruct Hgen as [->| ->]; reflexivity.
Qed.

Lemma fetchAttachments_nothing_to_attach_witness :
  outcome (fetchAttachments Warehouse.service "swap.created"
             Warehouse.unlabelled_return None) = Return [] /\
  trace (fetchAttachments Warehouse.service "swap.created"
           Warehouse.unlabelled_return None)
  = [Stage "fetchAttachments" "swap.created"].
Proof.
  exact (fetchAttachments_nothing_to_attach Warehouse.service "swap.created"
           Warehouse.unlabelled_return None eq_refl eq_refl eq_refl
           (or_introl eq_refl)).
Defined.

(** ** Mail outside the events *)

(** X18: [sendEmail], given an options object, never throws: it hands the
    mail client exactly one message, for the template and the recipient of
    the options and without attachments, and returns that recipient, the
    options themselves as data, and a status that is [failed] when the mail
    client rejects and [sent] when it resolves. *)
Theorem sendEmail_never_throws rt this options :
  exists r opts,
    outcome (sendEmail rt this options) = Return r /\
    sends (sendEmail rt this options) = [opts] /\
    template opts = eo_templateName options /\
    message_to opts = eo_to options /\
    message_attachments opts = None /\
    to r = eo_to options /\
    (Email_send rt (email_config this) opts = Rejected -> status r = failed) /\
    (Email_send rt (email_config this) opts = Resolved -> status r = sent) /\
    Js.member (data r) "templateName" = VStr (eo_templateName options) /\
    data r = locals_data opts.
Proof.
  do 2 eexists. split; [reflexivity|]. split; [reflexivity|]. cbn.
  repeat split; try (intros ->; reflexivity).
Qed.

Lemma sendEmail_never_throws_witness :
  exists r,
    outcome (sendEmail Sample.rt Warehouse.service Warehouse.newsletter) = Return r /\
    to r = VStr "reader@example.com" /\
    Js.member (data r) "issue" = VStr "42".
Proof.
  destruct (sendEmail_never_throws Sample.rt Warehouse.service Warehouse.newsletter)
    as (r & opts & Hr & _ & _ & _ & _ & Hto & _ & _ & _ & Hdata).
  exists r. split; [exact Hr|]. split; [exact Hto|].
  vm_compute in Hr. injection Hr as <-. reflexivity.
Defined.

(** ** The subscriber *)

(** X19: every handler that [UserSubscriber] registers is for
    [customer.password_reset], and on every event it throws a
    [ReferenceError] for [payload] before it reaches the service: it calls
    nothing and no message is sent. *)
Theorem subscriber_never_sends rt smtpService base64_of_json event handler data :
  In (event, handler) (UserSubscriber rt smtpService base64_of_json) ->
  event = "customer.password_reset" /\
  handler data = mkM [] (Throw (ReferenceError "payload")).
Proof.
  intros [[= <- <-]|[]]. split; reflexivity.
Qed.

Lemma subscriber_never_sends_witness :
  exists handler,
    In ("customer.password_reset", handler)
       (UserSubscriber Sample.rt Sample.service (fun _ => "")) /\
    handler Sample.reset_payload = mkM [] (Throw (ReferenceError "payload")).
Proof.
  exists (customer_password_reset_handler Sample.rt Sample.service (fun _ => "")).
  assert (Hin : In ("customer.password_reset",
                    customer_password_reset_handler Sample.rt Sample.service
                      (fun _ => ""))
                   (UserSubscriber Sample.rt Sample.service (fun _ => "")))
    by (left; reflexivity).
  split; [exact Hin|].
  exact (proj2 (subscriber_never_sends Sample.rt Sample.service (fun _ => "")
                  _ _ Sample.reset_payload Hin)).
Defined.

(** ** Shipments *)

(** X20: [orderShipmentCreatedData] returns a context only for a fulfillment
    that has a shipping date; the context then carries that date as a date
    string, the tracking numbers joined by a comma and a space, and the
    tracking links of the fulfillment. *)
Theorem orderShipmentCreatedData_shipped rt this eventData ctx :
  outcome (orderShipmentCreatedData rt this eventData) = Return ctx ->
  exists svc id config shipment shipped_at,
    fulfillmentService_ this = Some svc /\
    retrieve svc id config = Return shipment /\
    ful_shipped_at shipment = Some shipped_at /\
    Js.member ctx "date" = VStr (toDateString rt shipped_at) /\
    Js.member ctx "tracking_number"
      = VStr (Str.join ", " (ful_tracking_numbers shipment)) /\
    Js.member ctx "tracking_links" = ful_tracking_links shipment.
Proof.
  unfold orderShipmentCreatedData. intros H.
  apply bind_returns in H as (id & _ & H).
  apply bind_returns in H as (fid & _ & H).
  apply bind_returns in H as (order & _ & H).
  apply bind_returns in H as (shipment & Hshipment & H).
  apply bind_returns in H as (locale & _ & H).
  apply bind_returns in H as (date & Hdate & H).
  injection H as <-.
  apply retrieve_from_returns in Hshipment as (svc & Hsvc & Hshipment).
  unfold date_string in Hdate.
  destruct (ful_shipped_at shipment) as [t|] eqn:Hshipped; [|discriminate Hdate].
  injection Hdate as <-.
  exists svc, fid. eexists. exists shipment, t.
  repeat split; eauto.
Qed.

Lemma orderShipmentCreatedData_shipped_witness :
  exists ctx,
    outcome (orderShipmentCreatedData Sample.rt Warehouse.service
               Warehouse.shipment_payload) = Return ctx /\
    Js.member ctx "tracking_number" = VStr "1Z999, 1Z998".
Proof.
  destruct (outcome (orderShipmentCreatedData Sample.rt Warehouse.service
                       Warehouse.shipment_payload))
    as [ctx|e] eqn:Hctx; [|vm_compute in Hctx; discriminate Hctx].
  destruct (orderShipmentCreatedData_shipped Sample.rt Warehouse.service
              Warehouse.shipment_payload ctx Hctx)
    as (svc & id & config & shipment & shipped_at
        & Hsvc & Hshipment & _ & _ & Htracking & _).
  injection Hsvc as <-. injection Hshipment as <-.
  exists ctx. split; [reflexivity|exact Htracking].
Defined.

(** ** The return order of a swap *)

Lemma joined_return_order_items returnRequest items :
  exists lines,
    Js.member (joined_return_order returnRequest items) "items" = VArr lines /\
    length lines = length (ret_items returnRequest) /\
    Forall (fun line =>
              Js.member line "item" = VUndefined \/
              exists found, In found items /\
                            Js.member line "item" = Enc.line_item found)
           lines.
Proof.
  unfold joined_return_order. eexists. split; [|split].
  - unfold Js.member. rewrite lookup_set_field_eq. reflexivity.
  - apply length_map.
  - apply Forall_map, Forall_forall. intros item _.
    unfold Js.member, Js.assign. cbn [fold_left fst snd].
    rewrite lookup_set_field_eq. cbn [default from_option id].
    destruct (find_item items (ri_item_id item)) as [found|] eqn:Hfind;
      [right|left; reflexivity].
    exists found. split; [|reflexivity].
    apply List.find_some in Hfind as [Hin _]. exact Hin.
Qed.

Lemma swapCreatedData_return_request rt this eventData ctx :
  outcome (swapCreatedData rt this eventData) = Return ctx ->
  exists swap items,
    Js.member ctx "swap"
      = swap_with swap (joined_return_order (swap_return_order swap) items) /\
    Js.member ctx "return_request"
      = joined_return_order (swap_return_order swap) items.
Proof.
  unfold swapCreatedData. intros H.
  apply bind_returns in H as (id & _ & H).
  apply bind_returns in H as (store_svc & _ & H).
  apply bind_returns in H as (store & _ & H).
  apply bind_returns in H as (swap & _ & H).
  cbv zeta in H.
  apply bind_returns in H as (items & _ & H).
  apply bind_returns in H as (order & _ & H).
  apply bind_returns in H as (cart & _ & H).
  apply bind_returns in H as (decoratedItems & _ & H).
  apply bind_returns in H as (locale & _ & H).
  injection H as <-. exists swap, items. split; reflexivity.
Qed.

Lemma swapReceivedData_return_request rt this eventData ctx :
  outcome (swapReceivedData rt this eventData) = Return ctx ->
  exists swap items,
    Js.member ctx "swap"
      = swap_with swap (joined_return_order (swap_return_order swap) items) /\
    Js.member ctx "return_request"
      = joined_return_order (swap_return_order swap) items.
Proof.
  unfold swapReceivedData. intros H.
  apply bind_returns in H as (id & _ & H).
  apply bind_returns in H as (store_svc & _ & H).
  apply bind_returns in H as (store & _ & H).
  apply bind_returns in H as (swap & _ & H).
  cbv zeta in H.
  apply bind_returns in H as (items & _ & H).
  apply bind_returns in H as (order & _ & H).
  apply bind_returns in H as (cart & _ & H).
  apply bind_returns in H as (decoratedItems & _ & H).
  apply bind_returns in H as (locale & _ & H).
  injection H as <-. exists swap, items. split; reflexivity.
Qed.



(** ** The lines of an order *)

Lemma lookup_spread_object k (o : Js.fields) :
  NoDup (map fst o) ->
  Js.lookup_field k (Js.spread (VObj o) []) = Js.lookup_field k o.
Proof.
  intros Hnd. change (Js.spread (VObj o) []) with (Js.assign o []).
  destruct (Js.lookup_field k o) as [v|] eqn:Hk.
  - apply lookup_assign_first; assumption.
  - rewrite lookup_assign_notin by exact Hk. reflexivity.
Qed.

(** X22: [processItems_] returns one line for each item, in the order of
    the items.  The line's [thumbnail] is the normalised thumbnail of the
    item and its [price] is the formatted unit price with tax, a space and
    the currency code as given, whatever the item had under these two
    names; every other property of the item is kept. *)
Theorem processItems_lines items taxRate currencyCode :
  Forall2
    (fun i line =>
       Js.member line "thumbnail"
         = Js.of_option_string (normalizeThumbUrl_ (item_thumbnail i)) /\
       Js.member line "price"
         = VStr (humanPrice_ (inject_Z (item_unit_price i) * (1 + taxRate))
                   currencyCode +:+ " " +:+ currencyCode) /\
       (NoDup (map fst (Enc.line_item_fields i)) ->
        forall k, k <> "thumbnail" -> k <> "price" ->
                  Js.member line k = Js.member (Enc.line_item i) k))
    items (processItems_ items taxRate currencyCode).
Proof.
  unfold processItems_. induction items as [|i items IH]; constructor; [|exact IH].
  unfold Js.member, Js.assign. cbn [fold_left fst snd]. split; [|split].
  - rewrite lookup_set_field_ne by discriminate.
    rewrite lookup_set_field_eq. reflexivity.
  - rewrite lookup_set_field_eq. reflexivity.
  - intros Hnd k Ht Hp.
    rewrite !lookup_set_field_ne by assumption.
    unfold Enc.line_item. rewrite lookup_spread_object by exact Hnd. reflexivity.
Qed.

Lemma processItems_lines_witness :
  NoDup (map fst (Enc.line_item_fields Sample.additional_line)) /\
  exists line,
    processItems_ [ Sample.additional_line ] 0 "usd" = [ line ] /\
    Js.member line "thumbnail" = VStr "https://cdn.x/img.png" /\
    Js.member line "price" = VStr "5.00 usd" /\
    Js.member line "id" = VStr "item_additional".
Proof.
  assert (Hnd : NoDup (map fst (Enc.line_item_fields Sample.additional_line)))
    by (apply (bool_decide_unpack _); vm_compute; exact I).
  split; [exact Hnd|].
  pose proof (processItems_lines [ Sample.additional_line ] 0 "usd") as H.
  destruct (processItems_ [ Sample.additional_line ] 0 "usd") as [|line [|]] eqn:E;
    try (exfalso; vm_compute in E; discriminate E).
  exists line. split; [reflexivity|].
  apply Forall2_cons_1 in H as [(Hthumbnail & Hprice & Hkeep) _].
  split; [exact Hthumbnail|]. split; [exact Hprice|].
  rewrite (Hkeep Hnd "id") by discriminate. reflexivity.
Defined.
